(** * QueryInterface (lib/query-interface.js): a shallow embedding

    The JavaScript class [QueryInterface] turns dialect-independent
    operations into SQL text (through the dialect's [QueryGenerator]) and
    hands that text to [sequelize.query].  This development embeds the
    methods whose behaviour is specified: transaction control, table
    introspection, column rename, constraint creation, upsert, bulk delete
    and bulk table drop.

    Modelling conventions
    - JavaScript data is a [value]; plain objects are carried by value,
      objects whose identity matters (Transaction instances, a caller's
      [where] object) live in a heap and are referred to by [VRef].
    - A method runs over a [World]: the heap plus the trace of what has
      been asked of the SQL generator and of the executor.
    - The result of a method is an [Outcome]: the promise it returned was
      fulfilled, or rejected, or the method threw before returning one.
    - The executor is deterministic in the history it has seen: a reply is
      a function of the trace so far and of the statement. *)

From stdpp Require Import gmap strings list pretty.
From Stdlib Require Import ZArith.

Set Warnings "-register-all".

Local Open Scope string_scope.
Local Open Scope list_scope.

(** ** JavaScript values *)

Definition loc := nat.

Inductive value : Type :=
| VUndefined
| VNull
| VBool (b : bool)
| VNum (n : Z)
| VStr (s : string)
| VArr (items : list value)
| VObj (props : list (string * value))
| VRef (l : loc).
Arguments VNum n%_Z.

(** [!!v] in JavaScript. *)
Definition truthy (v : value) : bool :=
  match v with
  | VUndefined | VNull => false
  | VBool b => b
  | VNum n => negb (n =? 0)%Z
  | VStr s => negb (String.eqb s "")
  | VArr _ | VObj _ | VRef _ => true
  end.

(** [a || b] *)
Definition js_or (a b : value) : value := if truthy a then a else b.

(** [a && b] *)
Definition js_and (a b : value) : value := if truthy a then b else a.

(** [_.isObject] *)
Definition isObject (v : value) : bool :=
  match v with
  | VArr _ | VObj _ | VRef _ => true
  | _ => false
  end.

(** [typeof v === 'object'] (true for [null] as well) *)
Definition typeof_object (v : value) : bool :=
  match v with
  | VNull | VArr _ | VObj _ | VRef _ => true
  | _ => false
  end.

Definition is_nullish (v : value) : bool :=
  match v with
  | VUndefined | VNull => true
  | _ => false
  end.

(** String coercion, as done by [+] with a string operand and by a
    computed property key. *)
Fixpoint to_str (v : value) : string :=
  match v with
  | VUndefined => "undefined"
  | VNull => "null"
  | VBool true => "true"
  | VBool false => "false"
  | VNum n => pretty n
  | VStr s => s
  | VArr items =>
      (fix join (l : list value) : string :=
         match l with
         | [] => ""
         | x :: r =>
             let e := match x with
                      | VUndefined | VNull => ""
                      | _ => to_str x
                      end in
             match r with
             | [] => e
             | _ => e +:+ "," +:+ join r
             end
         end) items
  | VObj _ | VRef _ => "[object Object]"
  end.

(** Lookup in the property list of a plain object. *)
Fixpoint assoc (k : string) (ps : list (string * value)) : option value :=
  match ps with
  | [] => None
  | (k', v) :: r => if String.eqb k k' then Some v else assoc k r
  end.

(** [o[k] = v] on a plain object: overwrite in place, or append. *)
Fixpoint set_prop (k : string) (v : value) (ps : list (string * value))
  : list (string * value) :=
  match ps with
  | [] => [(k, v)]
  | (k', v') :: r =>
      if String.eqb k k' then (k, v) :: r else (k', v') :: set_prop k v r
  end.

(** [delete o[k]] *)
Definition delete_prop (k : string) (ps : list (string * value))
  : list (string * value) :=
  filter (fun p => negb (String.eqb k (fst p))) ps.

(** Own enumerable properties, as seen by [_.assign]. *)
Definition own_props (v : value) : list (string * value) :=
  match v with
  | VObj ps => ps
  | VArr items => imap (fun i x => (pretty i, x)) items
  | VStr s =>
      imap (fun i c => (pretty i, VStr (String c EmptyString)))
           (String.list_ascii_of_string s)
  | _ => []
  end.

(** [_.assign({}, a, b)] *)
Definition assign2 (a b : value) : value :=
  VObj (fold_left (fun acc p => set_prop (fst p) (snd p) acc)
                  (own_props a ++ own_props b) []).

(** [a === b]; plain objects and arrays carried by value have no identity
    of their own and never compare equal. *)
Definition strict_eq (a b : value) : bool :=
  match a, b with
  | VUndefined, VUndefined | VNull, VNull => true
  | VBool x, VBool y => Bool.eqb x y
  | VNum x, VNum y => (x =? y)%Z
  | VStr x, VStr y => String.eqb x y
  | VRef x, VRef y => Nat.eqb x y
  | _, _ => false
  end.

(** [xs.indexOf(x) === -1] on the elements of an array *)
Definition not_in_array (x : value) (xs : list value) : bool :=
  negb (existsb (strict_eq x) xs).

(** [_.flatten]: one level. *)
Definition flatten (v : value) : list value :=
  match v with
  | VArr items =>
      concat (map (fun x => match x with VArr inner => inner | _ => [x] end) items)
  | VStr s =>
      map (fun c => VStr (String c EmptyString)) (String.list_ascii_of_string s)
  | _ => []
  end.

(** The double quote character, for messages that quote a name. *)
Definition dquote : string := String (Ascii.ascii_of_nat 34) EmptyString.

(** ** Heap objects *)

Record Obj := { cls : string; fields : gmap string value }.

Abbreviation Heap := (gmap loc Obj).

(** [v.k]; [None] is the TypeError raised on [undefined] and [null]. *)
Definition getp (h : Heap) (v : value) (k : string) : option value :=
  match v with
  | VUndefined | VNull => None
  | VObj ps => Some (default VUndefined (assoc k ps))
  | VRef l =>
      Some (default VUndefined (o ← h !! l; fields o !! k))
  | _ => Some VUndefined
  end.

(** Property read where the receiver is known not to be nullish. *)
Definition prop (h : Heap) (v : value) (k : string) : value :=
  default VUndefined (getp h v k).

(** [v.k = x] on a heap object. *)
Definition set_field (l : loc) (k : string) (x : value) (h : Heap) : Heap :=
  match h !! l with
  | Some o => <[l := {| cls := cls o; fields := <[k := x]> (fields o) |}]> h
  | None => h
  end.

(** [_.isEmpty] *)
Definition isEmpty (h : Heap) (v : value) : bool :=
  match v with
  | VUndefined | VNull | VBool _ | VNum _ => true
  | VStr s => String.eqb s ""
  | VArr items => match items with [] => true | _ => false end
  | VObj ps => match ps with [] => true | _ => false end
  | VRef l =>
      match h !! l with
      | Some o => bool_decide (fields o = ∅)
      | None => true
      end
  end.

(** [v instanceof C] *)
Definition instanceof (h : Heap) (v : value) (c : string) : bool :=
  match v with
  | VRef l =>
      match h !! l with
      | Some o => String.eqb (cls o) c
      | None => false
      end
  | _ => false
  end.

(** ** Worlds, outcomes and the promise chain *)

Inductive Error :=
| JsError (msg : string)        (* new Error(msg) *)
| TypeError                     (* property read on undefined or null *)
| Reason (msg : string)         (* Promise.reject(msg) with a bare string *)
| DatabaseError (e : value).    (* rejection that came out of sequelize.query *)

Inductive Event :=
| Generated (method : string) (sql : value)
| Sent (sql : value) (options : value).

Record World := { heap : Heap; trace : list Event }.

Inductive Outcome (A : Type) :=
| Resolved (a : A)
| Rejected (e : Error)
| Thrown (e : Error).
Arguments Resolved {A} a.
Arguments Rejected {A} e.
Arguments Thrown {A} e.

Definition St (A : Type) := World -> A * World.
Abbreviation M A := (St (Outcome A)).

Definition resolve {A} (a : A) : M A := fun w => (Resolved a, w).
Definition reject {A} (e : Error) : M A := fun w => (Rejected e, w).
Definition throw {A} (e : Error) : M A := fun w => (Thrown e, w).

(** Sequencing of synchronous steps: the state monad, with stdpp's
    [x ← m; k] notation. *)
#[global] Instance St_ret : MRet St := fun A a w => (a, w).
#[global] Instance St_bind : MBind St :=
  fun A B k m w => let (a, w') := m w in k a w'.

(** [p.then(k)]: the handler runs only when [p] is fulfilled, and an
    exception raised inside the handler rejects the resulting promise.
    When the expression that should have produced [p] threw, there is no
    promise and the exception goes on. *)
Definition then_ {A B} (p : M A) (k : A -> M B) : M B :=
  fun w =>
    match p w with
    | (Resolved a, w') =>
        match k a w' with
        | (Thrown e, w'') => (Rejected e, w'')
        | r => r
        end
    | (Rejected e, w') => (Rejected e, w')
    | (Thrown e, w') => (Thrown e, w')
    end.

Definition get_heap : St Heap := fun w => (heap w, w).
Definition modify_heap (f : Heap -> Heap) : St unit :=
  fun w => (tt, {| heap := f (heap w); trace := trace w |}).
Definition emit (e : Event) : St unit :=
  fun w => (tt, {| heap := heap w; trace := trace w ++ [e] |}).

(** An exception raised by a callback that a promise combinator runs
    rejects the combinator's promise. *)
Definition settle {A} (m : M A) : M A :=
  fun w =>
    match m w with
    | (Thrown e, w') => (Rejected e, w')
    | r => r
    end.

(** [Promise.each(xs, f)]: one element after the other, stopping at the
    first rejection. *)
Fixpoint each_ {A} (f : A -> M value) (xs : list A) : M unit :=
  match xs with
  | [] => resolve tt
  | x :: r => then_ (settle (f x)) (fun _ => each_ f r)
  end.

(** [Promise.map(xs, f)], and [Promise.all] over promises made in a loop:
    every call is started, in array order; the result is fulfilled with
    all the values when every one is, and rejected otherwise.  Which
    rejection wins is a matter of timing in JavaScript; the model reports
    the one with the lowest index. *)
Fixpoint all_ {A B} (f : A -> M B) (xs : list A) : M (list B) :=
  match xs with
  | [] => resolve []
  | x :: r =>
      fun w =>
        let (o, w1) := settle (f x) w in
        let (os, w2) := all_ f r w1 in
        (match o, os with
         | Resolved b, Resolved bs => Resolved (b :: bs)
         | Resolved _, Rejected e => Rejected e
         | Resolved _, Thrown e => Rejected e
         | Rejected e, _ => Rejected e
         | Thrown e, _ => Rejected e
         end, w2)
  end.

(** ** The environment of a QueryInterface instance *)

(** Replies of the database behind [sequelize.query]. *)
Inductive Reply := Ok (v : value) | Fail (e : value).

(** What upsert reads of a model class. *)
Record Index := { unique : value; index_fields : list value }.

Record Model := {
  uniqueKeys : list (string * list value);  (* name ↦ value.fields *)
  _indexes : list Index;
  primaryKeyField : value;
}.

(** The dialect's SQL generator: the methods the embedded code calls.
    Each returns SQL text, or a falsy value when the dialect has no
    statement for the case. *)
Record QueryGenerator := {
  setAutocommitQuery : value -> value -> value;
  setIsolationLevelQuery : value -> value -> value;
  commitTransactionQuery : Heap -> value -> value;
  rollbackTransactionQuery : Heap -> value -> value;
  describeTableQuery : value -> value -> value -> value;
  showTablesQuery : value;
  dropTableQuery : value -> value -> value;
  pgEnumDrop : value -> value -> value;
  dropForeignKeyQuery : value -> value -> value;
  getForeignKeysQuery : value -> value -> value;
  attributesToSQL : value -> value;
  renameColumnQuery : value -> value -> value -> value;
  addConstraintQuery : value -> value -> value -> value;
  truncateTableQuery : value -> value -> value;
  upsertQuery : value -> value -> value -> value -> Model -> value -> value;
  (* deleteQuery is handed the caller's where object and may write to it *)
  deleteQuery : value -> value -> value -> value -> Heap -> value * Heap;
}.

(** [Utils] (lib/utils.js, not among the sources): [isWhereEmpty], which
    decides whether a caller-supplied predicate is empty, is taken as it
    comes. *)
Record Utils := {
  isWhereEmpty : value -> bool;
}.

(** Modelled from the spec: [Utils.cloneDeep] (lib/utils.js is not among
    the sources), the clone taken before a dialect may write to its
    argument.  Data carried by value is its own copy; a plain object of the
    heap is copied to a fresh location; an instance of a class stays
    shared. *)
Definition cloneDeep (v : value) : St value :=
  fun w =>
    match v with
    | VRef l =>
        match heap w !! l with
        | Some o =>
            if String.eqb (cls o) "Object" then
              let l' := fresh (dom (heap w)) in
              (VRef l', {| heap := <[l' := o]> (heap w); trace := trace w |})
            else (v, w)
        | None => (v, w)
        end
    | _ => (v, w)
    end.

(** Modelled from the spec: [Op.or] (lib/operators.js is not among the
    sources), the key of a disjunction.  It is a symbol; as a property key
    it is written as a name of its own. *)
Definition Op_or : string := "Symbol(or)".

(** [SQLiteQueryInterface] (lib/dialects/sqlite/query-interface.js): the
    two workarounds the embedded methods delegate to. *)
Record SQLiteQueryInterface := {
  sqlite_renameColumn : value -> value -> value -> value -> M value;
  sqlite_addConstraint : value -> value -> value -> M value;
}.

Record Sequelize := {
  options_dialect : string;                 (* sequelize.options.dialect *)
  dialect_name : string;                    (* sequelize.dialect.name *)
  config_database : value;                  (* sequelize.config.database *)
  generator : QueryGenerator;               (* sequelize.dialect.QueryGenerator *)
  database : list Event -> value -> value -> Reply;
  (* sequelize.modelManager.getModel(tableName, { attribute: 'tableName' }),
     reduced to what dropTable reads: the keys of rawAttributes, each with
     whether its type is an instance of DataTypes.ENUM *)
  getModel : value -> option (list (string * bool));
}.

(** Modelled from the spec: [QueryTypes] (lib/query-types.js is not among
    the sources), the kinds of query the executor is told about, each
    standing for its own name. *)
Module QueryTypes.
Definition DESCRIBE := VStr "DESCRIBE".
Definition SHOWTABLES := VStr "SHOWTABLES".
Definition FOREIGNKEYS := VStr "FOREIGNKEYS".
Definition UPSERT := VStr "UPSERT".
End QueryTypes.

Section QueryInterface.
Context (this : Sequelize) (SQLite : SQLiteQueryInterface) (utils : Utils).

(** The free variable [identifier] of bulkDelete.  The file binds no such
    name, so the read goes to the global scope: [VUndefined] unless the host
    program has defined a global of that name. *)
Context (identifier : value).

Let QG := generator this.

(** A call [this.QueryGenerator.m(...)], recorded in the trace. *)
Definition generate (method : string) (sql : value) : St value :=
  _ ← emit (Generated method sql); mret sql.

(** [this.sequelize.query(sql, options)]: the statement is handed to the
    executor and the promise of its reply comes back. *)
Definition query (sql options : value) : M value :=
  fun w =>
    let w' := {| heap := heap w; trace := trace w ++ [Sent sql options] |} in
    match database this (trace w) sql options with
    | Ok v => (Resolved v, w')
    | Fail e => (Rejected (DatabaseError e), w')
    end.

(** [target.k = x] where [target] is an object of the heap. *)
Definition assign_field (target : value) (k : string) (x : value) : St unit :=
  match target with
  | VRef l => modify_heap (set_field l k x)
  | _ => mret tt
  end.

(** [!transaction || !(transaction instanceof Transaction)] *)
Definition not_a_transaction (h : Heap) (transaction : value) : bool :=
  negb (truthy transaction) || negb (instanceof h transaction "Transaction").

(** *** Transaction control (lines 1300-1411) *)

Definition setAutocommit (transaction value_ options : value) : M value :=
  h ← get_heap;
  if not_a_transaction h transaction then
    throw (JsError "Unable to set autocommit for a transaction without transaction object!")
  else if truthy (prop h transaction "parent") then
    resolve VUndefined
  else
    let options :=
      assign2 options
        (VObj [("transaction", js_or (prop h transaction "parent") transaction)]) in
    sql ← generate "setAutocommitQuery"
            (setAutocommitQuery QG value_
               (VObj [("parent", prop h transaction "parent")]));
    if negb (truthy sql) then resolve VUndefined
    else query sql options.

Definition setIsolationLevel (transaction value_ options : value) : M value :=
  h ← get_heap;
  if not_a_transaction h transaction then
    throw (JsError "Unable to set isolation level for a transaction without transaction object!")
  else if truthy (prop h transaction "parent") || negb (truthy value_) then
    resolve VUndefined
  else
    let options :=
      assign2 options
        (VObj [("transaction", js_or (prop h transaction "parent") transaction)]) in
    sql ← generate "setIsolationLevelQuery"
            (setIsolationLevelQuery QG value_
               (VObj [("parent", prop h transaction "parent")]));
    if negb (truthy sql) then resolve VUndefined
    else query sql options.

Definition commitTransaction (transaction options : value) : M value :=
  h ← get_heap;
  if not_a_transaction h transaction then
    throw (JsError "Unable to commit a transaction without transaction object!")
  else if truthy (prop h transaction "parent") then
    resolve VUndefined
  else
    let options :=
      assign2 options
        (VObj [("transaction", js_or (prop h transaction "parent") transaction);
               ("supportsSearchPath", VBool false)]) in
    sql ← generate "commitTransactionQuery" (commitTransactionQuery QG h transaction);
    promise ← query sql options;
    _ ← assign_field transaction "finished" (VStr "commit");
    mret promise.

Definition rollbackTransaction (transaction options : value) : M value :=
  h ← get_heap;
  if not_a_transaction h transaction then
    throw (JsError "Unable to rollback a transaction without transaction object!")
  else
    let options :=
      assign2 options
        (VObj [("transaction", js_or (prop h transaction "parent") transaction);
               ("supportsSearchPath", VBool false)]) in
    _ ← assign_field (prop h options "transaction") "name"
          (if truthy (prop h transaction "parent")
           then prop h transaction "name" else VUndefined);
    h' ← get_heap;
    sql ← generate "rollbackTransactionQuery" (rollbackTransactionQuery QG h' transaction);
    promise ← query sql options;
    _ ← assign_field transaction "finished" (VStr "rollback");
    mret promise.

(** *** describeTable (lines 414-445) *)

Definition not_found_message (tableName : value) : string :=
  "No description found for " +:+ dquote +:+ to_str tableName +:+ dquote +:+
  " table. Check the table name and schema; remember, they _are_ case sensitive.".

(** The name describeTable goes on with: the [tableName] property of an
    object, the argument itself otherwise (lines 425-428). *)
Definition described_name (h : Heap) (tableName : value) : value :=
  match tableName with
  | VArr _ | VObj _ | VRef _ => prop h tableName "tableName"
  | _ => tableName
  end.

Definition describeTable (tableName options : value) : M value :=
  h ← get_heap;
  let schema :=
    match options with
    | VStr _ => options
    | VArr _ | VObj _ | VRef _ => js_or (prop h options "schema") VNull
    | _ => VNull
    end in
  let schemaDelimiter :=
    match options with
    | VArr _ | VObj _ | VRef _ => js_or (prop h options "schemaDelimiter") VNull
    | _ => VNull
    end in
  let schema :=
    match tableName with
    | VArr _ | VObj _ | VRef _ => prop h tableName "schema"
    | _ => schema
    end in
  let tableName := described_name h tableName in
  sql ← generate "describeTableQuery"
          (describeTableQuery QG tableName schema schemaDelimiter);
  then_ (query sql (assign2 options (VObj [("type", QueryTypes.DESCRIBE)])))
    (fun data =>
       h ← get_heap;
       if isEmpty h data then reject (Reason (not_found_message tableName))
       else resolve data).

(** *** renameColumn (lines 542-577) *)

(** Lines 551-563: the definition of the column under its new name. *)
Definition renamed_definition (h : Heap) (data attrNameAfter : value) : value :=
  let definition :=
    [("attribute", attrNameAfter);
     ("type", prop h data "type");
     ("allowNull", prop h data "allowNull");
     ("defaultValue", prop h data "defaultValue")] in
  let definition :=
    if strict_eq (prop h data "defaultValue") VNull
       && negb (truthy (prop h data "allowNull"))
    then delete_prop "defaultValue" definition
    else definition in
  VObj [(to_str attrNameAfter, VObj definition)].

Definition renameColumn (tableName attrNameBefore attrNameAfter options : value)
  : M value :=
  let options := js_or options (VObj []) in
  then_ (describeTable tableName options)
    (fun data =>
       h ← get_heap;
       if negb (truthy (prop h data (to_str attrNameBefore))) then
         throw (JsError ("Table " +:+ to_str tableName +:+
                         " doesn't have the column " +:+ to_str attrNameBefore))
       else
         let data := js_or (prop h data (to_str attrNameBefore)) (VObj []) in
         let _options := renamed_definition h data attrNameAfter in
         if String.eqb (options_dialect this) "sqlite" then
           sqlite_renameColumn SQLite tableName attrNameBefore attrNameAfter options
         else
           attrs ← generate "attributesToSQL" (attributesToSQL QG _options);
           sql ← generate "renameColumnQuery"
                   (renameColumnQuery QG tableName attrNameBefore attrs);
           query sql options).

(** *** getForeignKeysForTables (lines 629-655) *)

(** The key under which a table is filed: [schema.tableName] for an
    object, the name itself otherwise. *)
Definition normalizedTableName (h : Heap) (tableName : value) : string :=
  if isObject tableName
  then to_str (prop h tableName "schema") +:+ "." +:+
       to_str (prop h tableName "tableName")
  else to_str tableName.

(** [r.constraint_name] for each row; a nullish row raises. *)
Fixpoint constraint_names_of_rows (h : Heap) (rows : list value)
  : option (list value) :=
  match rows with
  | [] => Some []
  | r :: rest =>
      n ← getp h r "constraint_name";
      ns ← constraint_names_of_rows h rest;
      Some (n :: ns)
  end.

(** What one query result contributes, before the falsy names are dropped. *)
Definition constraint_names (h : Heap) (r : value) : option (list value) :=
  match r with
  | VArr rows => constraint_names_of_rows h rows
  | _ => Some [js_and r (prop h r "constraint_name")]
  end.

(** The [forEach] of lines 641-651, from index [i] on. *)
Fixpoint collect_foreign_keys (h : Heap) (i : nat) (tableNames results : list value)
  (result : gmap string (list value)) : option (gmap string (list value)) :=
  match tableNames with
  | [] => Some result
  | tableName :: rest =>
      names ← constraint_names h (default VUndefined (results !! i));
      collect_foreign_keys h (S i) rest results
        (<[normalizedTableName h tableName := filter (fun n => truthy n = true) names]> result)
  end.

(** The queries of one call, one per table, as [Promise.map] starts them. *)
Definition foreign_key_queries (tableNames : list value) (options : value)
  : M (list value) :=
  all_ (fun tableName =>
          sql ← generate "getForeignKeysQuery"
                  (getForeignKeysQuery QG tableName (config_database this));
          query sql options)
       tableNames.

Definition getForeignKeysForTables (tableNames : list value) (options : value)
  : M (gmap string (list value)) :=
  match tableNames with
  | [] => resolve ∅
  | _ =>
      let options :=
        assign2 (js_or options (VObj [])) (VObj [("type", QueryTypes.FOREIGNKEYS)]) in
      then_ (foreign_key_queries tableNames options)
        (fun results =>
           h ← get_heap;
           match collect_foreign_keys h 0 tableNames results ∅ with
           | Some result => resolve result
           | None => throw TypeError
           end)
  end.

(** *** showAllTables, dropTable, dropAllTables (lines 207-294, 379-387) *)

Definition showAllTables (options : value) : M (list value) :=
  let options :=
    assign2 options (VObj [("raw", VBool true); ("type", QueryTypes.SHOWTABLES)]) in
  showTablesSql ← generate "showTablesQuery" (showTablesQuery QG);
  then_ (query showTablesSql options) (fun tableNames => resolve (flatten tableNames)).

(** [(!options || !options.schema || options.schema === 'public'
      ? '' : options.schema + '_') + tableName] *)
Definition enum_table_name (h : Heap) (options tableName : value) : string :=
  (if negb (truthy options) || negb (truthy (prop h options "schema"))
      || strict_eq (prop h options "schema") (VStr "public")
   then "" else to_str (prop h options "schema") +:+ "_") +:+ to_str tableName.

Definition dropTable (tableName options : value) : M value :=
  (* options is an object or absent *)
  let options := own_props (js_or options (VObj [])) in
  let options :=
    VObj (set_prop "cascade"
            (js_or (js_or (default VUndefined (assoc "cascade" options))
                          (default VUndefined (assoc "force" options)))
                   (VBool false))
            options) in
  sql ← generate "dropTableQuery" (dropTableQuery QG tableName options);
  then_ (query sql options)
    (fun _ =>
       h ← get_heap;
       let enums :=
         if String.eqb (options_dialect this) "postgres" then
           match getModel this tableName with
           | Some rawAttributes => map fst (filter (fun kv => snd kv = true) rawAttributes)
           | None => []
           end
         else [] in
       then_ (all_ (fun key =>
                      sql ← generate "pgEnumDrop"
                              (pgEnumDrop QG (VStr (enum_table_name h options tableName))
                                 (VStr key));
                      query sql
                        (assign2 (VObj (set_prop "supportsSearchPath" (VBool false)
                                          (own_props options)))
                                 (VObj [("raw", VBool true)])))
                   enums)
         (fun results => resolve (default VUndefined (results !! 0)))).

(** [skip.indexOf(x) === -1]; [None] when [skip] has no [indexOf]. *)
Definition not_skipped (skip x : value) : option bool :=
  match skip with
  | VArr items => Some (not_in_array x items)
  | VStr s => Some (negb (bool_decide (is_Some (String.index 0 (to_str x) s))))
  | _ => None
  end.

(** The inner [dropAllTables] arrow function (lines 254-259). *)
Definition drop_each (options skip : value) (tableNames : list value) : M unit :=
  each_ (fun tableName =>
           h ← get_heap;
           match getp h tableName "tableName" with
           | None => throw TypeError
           | Some name =>
               match not_skipped skip (js_or name tableName) with
               | None => throw TypeError
               | Some true =>
                   dropTable tableName (assign2 options (VObj [("cascade", VBool true)]))
               | Some false => resolve VUndefined
               end
           end)
        tableNames.

(** The statements that drop the foreign keys of every table, in the
    order the two nested [forEach] push them; [None] when a table has no
    entry in [foreignKeys] (getForeignKeysForTables files every table
    under the same key, so that does not arise). *)
Fixpoint foreign_key_drops (h : Heap) (foreignKeys : gmap string (list value))
  (tableNames : list value) : option (list (value * value)) :=
  match tableNames with
  | [] => Some []
  | tableName :: rest =>
      keys ← foreignKeys !! normalizedTableName h tableName;
      more ← foreign_key_drops h foreignKeys rest;
      Some (map (fun foreignKey => (tableName, foreignKey)) keys ++ more)
  end.

Definition dropAllTables (options : value) : M value :=
  h ← get_heap;
  let options := js_or options (VObj []) in
  let skip := js_or (prop h options "skip") (VArr []) in
  then_ (showAllTables options)
    (fun tableNames =>
       if String.eqb (options_dialect this) "sqlite" then
         then_ (query (VStr "PRAGMA foreign_keys;") options)
           (fun result =>
              h ← get_heap;
              match getp h result "foreign_keys" with
              | None => throw TypeError
              | Some foreign_keys =>
                  let foreignKeysAreEnabled := strict_eq foreign_keys (VNum 1) in
                  if foreignKeysAreEnabled then
                    then_ (then_ (query (VStr "PRAGMA foreign_keys = OFF") options)
                                 (fun _ => drop_each options skip tableNames))
                          (fun _ => query (VStr "PRAGMA foreign_keys = ON") options)
                  else
                    then_ (drop_each options skip tableNames)
                          (fun _ => resolve (VArr tableNames))
              end)
       else
         then_ (getForeignKeysForTables tableNames options)
           (fun foreignKeys =>
              h ← get_heap;
              match foreign_key_drops h foreignKeys tableNames with
              | None => throw TypeError
              | Some drops =>
                  then_ (then_ (all_ (fun d =>
                                        sql ← generate "dropForeignKeyQuery"
                                                (dropForeignKeyQuery QG (fst d) (snd d));
                                        query sql options)
                                     drops)
                               (fun _ => drop_each options skip tableNames))
                        (fun _ => resolve (VArr tableNames))
              end)).

(** *** addConstraint (lines 774-799) *)

Definition addConstraint (tableName attributes options rawTablename : value)
  : M value :=
  h ← get_heap;
  (* if (!Array.isArray(attributes)) { ... attributes = options.fields } *)
  let shifted :=
    match attributes with
    | VArr _ => Some (attributes, options, rawTablename)
    | _ =>
        fields ← getp h attributes "fields";
        Some (fields, attributes, options)
    end in
  match shifted with
  | None => throw TypeError
  | Some (attributes, options, rawTablename) =>
      match getp h options "type" with
      | None => throw TypeError
      | Some type =>
          if negb (truthy type) then
            throw (JsError "Constraint type must be specified through options.type")
          else
            let rawTablename :=
              if negb (truthy rawTablename) then tableName else rawTablename in
            options ← cloneDeep options;
            let options := VObj (set_prop "fields" attributes (own_props options)) in
            if String.eqb (dialect_name this) "sqlite" then
              sqlite_addConstraint SQLite tableName options rawTablename
            else
              sql ← generate "addConstraintQuery"
                      (addConstraintQuery QG tableName options rawTablename);
              query sql options
      end
  end.

(** *** upsert (lines 855-921) *)

(** [_.intersection(xs, ys)]: the distinct elements of [xs] found in [ys]. *)
Fixpoint intersection (xs ys : list value) : list value :=
  match xs with
  | [] => []
  | x :: r =>
      let rest := intersection r ys in
      if existsb (strict_eq x) ys && negb (existsb (strict_eq x) rest)
      then x :: rest else rest
  end.

(** Lines 868-883: the field lists of the unique keys, then those of the
    unique indexes, a field given as a plain object replaced by its
    [attribute]. *)
Definition unique_field_sets (model : Model) : list (list value) :=
  map snd (uniqueKeys model) ++
  map (fun value_ =>
         map (fun field =>
                match field with
                | VObj ps => default VUndefined (assoc "attribute" ps)
                | _ => field
                end)
             (index_fields value_))
      (filter (fun value_ => truthy (unique value_) = true) (_indexes model)).

(** Lines 887-890: the equality predicate of one field set. *)
Definition index_where (h : Heap) (insertValues : value) (index : list value) : value :=
  VObj (fold_left
          (fun where_ field =>
             set_prop (to_str field) (prop h insertValues (to_str field)) where_)
          index []).

(** Lines 856-895: the [where] clause that goes to the generator. *)
Definition upsert_where (h : Heap) (insertValues where_ : value) (model : Model)
  : value :=
  let attributes := map (fun kv => VStr (fst kv)) (own_props insertValues) in
  let wheres := if negb (isWhereEmpty utils where_) then [where_] else [] in
  let wheres :=
    fold_left
      (fun wheres index =>
         if Nat.eqb (length (intersection attributes index)) (length index)
         then wheres ++ [index_where h insertValues index]
         else wheres)
      (unique_field_sets model) wheres in
  VObj [(Op_or, VArr wheres)].

(** Lines 902-919: from the executor's raw result to what upsert returns. *)
Definition upsert_result (h : Heap) (model : Model) (result : value)
  : option value :=
  if String.eqb (options_dialect this) "postgres" then
    created ← getp h result "created";
    primary_key ← getp h result "primary_key";
    Some (VArr [created; primary_key])
  else if String.eqb (options_dialect this) "mssql" then
    action ← getp h result "$action";
    key ← getp h result (to_str (primaryKeyField model));
    Some (VArr [VBool (strict_eq action (VStr "INSERT")); key])
  else if String.eqb (options_dialect this) "mysql" then
    Some (VArr [VBool (strict_eq result (VNum 1)); VUndefined])
  else
    Some (VArr [result; VUndefined]).

Definition upsert (tableName insertValues updateValues where_ : value)
  (model : Model) (options : value) : M value :=
  h ← get_heap;
  if is_nullish insertValues then throw TypeError      (* Object.keys *)
  else if negb (isObject options) then throw TypeError (* options.type = ... *)
  else
    let where_ := upsert_where h insertValues where_ model in
    let options :=
      VObj (set_prop "raw" (VBool true)
              (set_prop "type" QueryTypes.UPSERT (own_props options))) in
    sql ← generate "upsertQuery"
            (upsertQuery QG tableName insertValues updateValues where_ model options);
    then_ (query sql options)
      (fun result =>
         h ← get_heap;
         match upsert_result h model result with
         | Some tuple => resolve tuple
         | None => throw TypeError
         end).

(** *** bulkDelete (lines 1028-1045) *)

Definition bulkDelete (tableName where_ options model : value) : M value :=
  options ← cloneDeep options;
  (* _.defaults(options, { limit: null }) *)
  let options :=
    let ps := own_props options in
    VObj (if strict_eq (default VUndefined (assoc "limit" ps)) VUndefined
          then set_prop "limit" VNull ps else ps) in
  if strict_eq (default VUndefined (assoc "truncate" (own_props options))) (VBool true)
  then
    sql ← generate "truncateTableQuery" (truncateTableQuery QG tableName options);
    query sql options
  else
    where_ ← (if typeof_object identifier then cloneDeep where_ else mret where_);
    sql ← (fun w =>
             let (sql, h') := deleteQuery QG tableName where_ options model (heap w) in
             (sql, {| heap := h'; trace := trace w ++ [Generated "deleteQuery" sql] |}));
    query sql options.

End QueryInterface.

(** ** The rest of the interface *)

(** The generator methods of the operations below; a generator method
    that has the name of an interface method carries the prefix [QG_]. *)
Record MoreQueryGenerator := {
  startTransactionQuery : Heap -> value -> value;
  deferConstraintsQuery : Heap -> value -> value;
  addIndexQuery : value -> value -> value -> value;
  addColumnQuery : value -> value -> value -> value;
  updateQuery : value -> value -> value -> value -> value -> value;
  selectQuery : value -> value -> value -> value;
  addSchema : value -> value;
  QG_createTrigger :
    value -> value -> value -> value -> value -> value -> value -> value;
  QG_dropTrigger : value -> value -> value;
  QG_renameTrigger : value -> value -> value -> value;
  QG_createFunction :
    value -> value -> value -> value -> value -> value -> value -> value;
  QG_dropFunction : value -> value -> value;
  QG_renameFunction : value -> value -> value -> value;
}.

(** The classes of [DataTypes] (lib/data-types.js, not among the sources)
    that rawSelect tells apart with [instanceof]. *)
Inductive DataTypeClass :=
| DECIMAL | FLOAT | INTEGER | BIGINT | DATE | STRING | OtherType.

(** What the embedded code asks of its host: JavaScript built-ins, and
    parts of the library that are not among the sources. *)
Record Host := {
  normalizeAttribute : value -> value;      (* sequelize.normalizeAttribute *)
  dataTypeClass : value -> DataTypeClass;   (* dataType instanceof DataTypes.X *)
  parseFloat : value -> value;
  parseInt10 : value -> value;              (* parseInt(x, 10) *)
  isDate : value -> bool;                   (* _.isDate *)
  newDate : value -> value;                 (* new Date(x) *)
  (* instance[method](options), for the association getters and destroy *)
  invoke : value -> string -> value -> M value;
}.

Module MoreQueryTypes.
Definition SELECT := VStr "SELECT".
Definition UPDATE := VStr "UPDATE".
End MoreQueryTypes.

(** [_.defaults(options, ds)]: a default is taken where [options] has
    [undefined]. *)
Definition default_step (acc : list (string * value)) (d : string * value)
  : list (string * value) :=
  if strict_eq (default VUndefined (assoc (fst d) acc)) VUndefined
  then set_prop (fst d) (snd d) acc else acc.

Definition defaults (options : value) (ds : list (string * value)) : value :=
  VObj (fold_left default_step ds (own_props options)).

(** [s.toLowerCase()], on ASCII letters. *)
Definition lower_ascii (c : Ascii.ascii) : Ascii.ascii :=
  let n := Ascii.nat_of_ascii c in
  if (65 <=? n)%nat && (n <=? 90)%nat then Ascii.ascii_of_nat (n + 32) else c.

Fixpoint toLowerCase (s : string) : string :=
  match s with
  | EmptyString => EmptyString
  | String c r => String (lower_ascii c) (toLowerCase r)
  end.

(** [instance.constructor]: the property of that name when the object has
    one of its own, the class [Object], which has no property the code
    reads, otherwise; [None] is the TypeError on [undefined] and [null]. *)
Definition constructor_of (h : Heap) (instance : value) : option value :=
  match instance with
  | VUndefined | VNull => None
  | VObj ps => Some (default (VObj []) (assoc "constructor" ps))
  | VRef l => Some (default (VObj []) (o ← h !! l; fields o !! "constructor"))
  | _ => Some (VObj [])
  end.

Section MoreOperations.
Context (this : Sequelize) (more : MoreQueryGenerator) (host : Host).

(** *** startTransaction, deferConstraints (lines 1345-1371) *)

Definition startTransaction (transaction options : value) : M value :=
  h ← get_heap;
  if not_a_transaction h transaction then
    throw (JsError "Unable to start a transaction without transaction object!")
  else
    let options :=
      assign2 options
        (VObj [("transaction", js_or (prop h transaction "parent") transaction)]) in
    _ ← assign_field (prop h options "transaction") "name"
          (if truthy (prop h transaction "parent")
           then prop h transaction "name" else VUndefined);
    h' ← get_heap;
    sql ← generate "startTransactionQuery" (startTransactionQuery more h' transaction);
    query this sql options.

Definition deferConstraints (transaction options : value) : M value :=
  h ← get_heap;
  match getp h transaction "parent" with
  | None => throw TypeError
  | Some parent =>
      let options :=
        assign2 options (VObj [("transaction", js_or parent transaction)]) in
      sql ← generate "deferConstraintsQuery" (deferConstraintsQuery more h options);
      if truthy sql then query this sql options
      else resolve VUndefined
  end.

(** *** addColumn, addIndex (lines 463-471, 595-613) *)

Definition addColumn (table key attribute options : value) : M value :=
  if negb (truthy table) || negb (truthy key) || negb (truthy attribute) then
    throw (JsError "addColumn takes atleast 3 arguments (table, attribute name, attribute definition)")
  else
    let options := js_or options (VObj []) in
    let attribute := normalizeAttribute host attribute in
    sql ← generate "addColumnQuery" (addColumnQuery more table key attribute);
    query this sql options.

Definition addIndex (tableName attributes options rawTablename : value)
  : M value :=
  h ← get_heap;
  let shifted :=
    match attributes with
    | VArr _ => Some (attributes, options, rawTablename)
    | _ =>
        fields ← getp h attributes "fields";
        Some (fields, attributes, options)
    end in
  match shifted with
  | None => throw TypeError
  | Some (attributes, options, rawTablename) =>
      let rawTablename :=
        if negb (truthy rawTablename) then tableName else rawTablename in
      options ← cloneDeep options;
      if negb (isObject options) then throw TypeError   (* options.fields = ... *)
      else
        let options := VObj (set_prop "fields" attributes (own_props options)) in
        sql ← generate "addIndexQuery" (addIndexQuery more tableName options rawTablename);
        query this sql (assign2 options (VObj [("supportsSearchPath", VBool false)]))
  end.

(** *** update, delete (lines 954-964, 978-1015) *)

Definition update (instance tableName values identifier options : value)
  : M value :=
  h ← get_heap;
  let options := js_or options (VObj []) in
  if negb (isObject options) then throw TypeError       (* options.hasTrigger = ... *)
  else
    let hasTrigger :=
      truthy (js_and instance
                (js_and (prop h instance "_modelOptions")
                        (prop h (prop h instance "_modelOptions") "hasTrigger"))) in
    let options := set_prop "hasTrigger" (VBool hasTrigger) (own_props options) in
    match class ← constructor_of h instance; getp h class "rawAttributes" with
    | None => throw TypeError
    | Some rawAttributes =>
        sql ← generate "updateQuery"
                (updateQuery more tableName values identifier (VObj options)
                   rawAttributes);
        let options :=
          set_prop "instance" instance
            (set_prop "type" MoreQueryTypes.UPDATE options) in
        query this sql (VObj options)
    end.

(** Lines 990-997, for one association: the getter to run, if the
    association cascades through hooks. *)
Definition cascade_of (h : Heap) (association : value) : option (option value) :=
  options ← getp h association "options";
  if negb (truthy options) then Some None
  else
    let onDelete := prop h options "onDelete" in
    if negb (truthy onDelete) then Some None
    else
      match onDelete with
      | VStr s =>
          if String.eqb (toLowerCase s) "cascade"
             && strict_eq (prop h options "useHooks") (VBool true)
          then
            accessors ← getp h association "accessors";
            get ← getp h accessors "get";
            Some (Some get)
          else Some None
      | _ => None                          (* no toLowerCase on it *)
      end.

(** Lines 985-998: the getters of the cascading associations, in the
    order of [Object.keys]. *)
Fixpoint cascades_of (h : Heap) (associations : list (string * value))
  : option (list value) :=
  match associations with
  | [] => Some []
  | (_, association) :: rest =>
      c ← cascade_of h association;
      cs ← cascades_of h rest;
      Some (match c with Some get => get :: cs | None => cs end)
  end.

(** Lines 1000-1011: the associated instances are loaded and destroyed,
    one association after the other. *)
Definition run_cascades (instance options : value) (cascades : list value)
  : M unit :=
  each_ (fun cascade =>
           then_ (invoke host instance (to_str cascade) options)
             (fun instances =>
                if negb (truthy instances) then resolve VUndefined
                else
                  let instances :=
                    match instances with
                    | VArr items => items
                    | _ => [instances]
                    end in
                  then_ (each_ (fun associated => invoke host associated "destroy" options)
                               instances)
                        (fun _ => resolve (VArr instances))))
        cascades.

Definition delete (instance tableName identifier options : value) : M value :=
  h ← get_heap;
  match constructor_of h instance with
  | None => throw TypeError
  | Some class =>
      sql ← (fun w =>
               let (sql, h') :=
                 deleteQuery (generator this) tableName identifier (VObj []) class
                   (heap w) in
               (sql, {| heap := h'; trace := trace w ++ [Generated "deleteQuery" sql] |}));
      let options := js_or options (VObj []) in
      h ← get_heap;
      let cascades :=
        if truthy class && truthy (prop h class "associations")
        then cascades_of h (own_props (prop h class "associations"))
        else Some [] in
      match cascades with
      | None => throw TypeError
      | Some cascades =>
          then_ (run_cascades instance options cascades)
            (fun _ =>
               if negb (isObject options) then throw TypeError
               else
                 query this sql
                   (VObj (set_prop "instance" instance (own_props options))))
      end
  end.

(** *** rawSelect (lines 1080-1126) *)

(** Lines 1108-1122: the conversion asked for by [options.dataType]. *)
Definition convert_result (h : Heap) (options result : value) : value :=
  if truthy options && truthy (prop h options "dataType") then
    match dataTypeClass host (prop h options "dataType") with
    | DECIMAL | FLOAT => parseFloat host result
    | INTEGER | BIGINT => parseInt10 host result
    | DATE =>
        if negb (strict_eq result VNull) && negb (isDate host result)
        then newDate host result else result
    | STRING | OtherType => result
    end
  else result.

Definition rawSelect (tableName options attributeSelector Model_ : value)
  : M value :=
  h ← get_heap;
  match getp h options "schema" with
  | None => throw TypeError
  | Some schema =>
      tableName ←
        (if truthy schema
         then generate "addSchema"
                (addSchema more (VObj [("tableName", tableName); ("_schema", schema)]))
         else mret tableName);
      options ← cloneDeep options;
      let options :=
        defaults options
          [("raw", VBool true); ("plain", VBool true);
           ("type", MoreQueryTypes.SELECT)] in
      sql ← generate "selectQuery" (selectQuery more tableName options Model_);
      if strict_eq attributeSelector VUndefined then
        throw (JsError "Please pass an attribute selector!")
      else
        then_ (query this sql options)
          (fun data =>
             h ← get_heap;
             if negb (truthy (prop h options "plain")) then resolve data
             else
               let result :=
                 if truthy data then prop h data (to_str attributeSelector)
                 else VNull in
               resolve (convert_result h options result))
  end.

(** *** Triggers and functions (lines 1128-1257) *)

Definition createTrigger (tableName triggerName timingType fireOnArray
    functionName functionParams optionsArray options : value) : M value :=
  sql ← generate "createTrigger"
          (QG_createTrigger more tableName triggerName timingType fireOnArray
             functionName functionParams optionsArray);
  let options := js_or options (VObj []) in
  if truthy sql then query this sql options else resolve VUndefined.

Definition dropTrigger (tableName triggerName options : value) : M value :=
  sql ← generate "dropTrigger" (QG_dropTrigger more tableName triggerName);
  let options := js_or options (VObj []) in
  if truthy sql then query this sql options else resolve VUndefined.

Definition renameTrigger (tableName oldTriggerName newTriggerName options : value)
  : M value :=
  sql ← generate "renameTrigger"
          (QG_renameTrigger more tableName oldTriggerName newTriggerName);
  let options := js_or options (VObj []) in
  if truthy sql then query this sql options else resolve VUndefined.

Definition createFunction (functionName params returnType language body
    optionsArray options declareStr : value) : M value :=
  sql ← generate "createFunction"
          (QG_createFunction more functionName params returnType language body
             optionsArray declareStr);
  let options := js_or options (VObj []) in
  if truthy sql then query this sql options else resolve VUndefined.

Definition dropFunction (functionName params options : value) : M value :=
  sql ← generate "dropFunction" (QG_dropFunction more functionName params);
  let options := js_or options (VObj []) in
  if truthy sql then query this sql options else resolve VUndefined.

Definition renameFunction (oldFunctionName params newFunctionName options : value)
  : M value :=
  sql ← generate "renameFunction"
          (QG_renameFunction more oldFunctionName params newFunctionName);
  let options := js_or options (VObj []) in
  if truthy sql then query this sql options else resolve VUndefined.

End MoreOperations.

(** ** Concrete environments *)

Module Sample.

(** A generator that writes recognisable text. *)
Definition text_generator : QueryGenerator := {|
  setAutocommitQuery := fun _ _ => VStr "SET autocommit = 1";
  setIsolationLevelQuery :=
    fun level _ => VStr ("SET SESSION TRANSACTION ISOLATION LEVEL " +:+ to_str level);
  commitTransactionQuery := fun _ _ => VStr "COMMIT";
  rollbackTransactionQuery := fun _ _ => VStr "ROLLBACK";
  describeTableQuery := fun t _ _ => VStr ("DESCRIBE " +:+ to_str t);
  showTablesQuery := VStr "SHOW TABLES";
  dropTableQuery := fun t _ => VStr ("DROP TABLE " +:+ to_str t);
  pgEnumDrop := fun t k => VStr ("DROP TYPE enum_" +:+ to_str t +:+ "_" +:+ to_str k);
  dropForeignKeyQuery :=
    fun t k => VStr ("ALTER TABLE " +:+ to_str t +:+ " DROP FOREIGN KEY " +:+ to_str k);
  getForeignKeysQuery := fun t _ => VStr ("FOREIGN KEYS OF " +:+ to_str t);
  attributesToSQL := fun a => a;
  renameColumnQuery :=
    fun t b _ => VStr ("ALTER TABLE " +:+ to_str t +:+ " RENAME " +:+ to_str b);
  addConstraintQuery := fun t _ _ => VStr ("ALTER TABLE " +:+ to_str t +:+ " ADD CONSTRAINT");
  truncateTableQuery := fun t _ => VStr ("TRUNCATE " +:+ to_str t);
  upsertQuery := fun t _ _ _ _ _ => VStr ("UPSERT " +:+ to_str t);
  deleteQuery := fun t _ _ _ h => (VStr ("DELETE FROM " +:+ to_str t), h);
|}.

Definition sequelize (dialect : string) (gen : QueryGenerator)
  (db : list Event -> value -> value -> Reply) : Sequelize := {|
  options_dialect := dialect;
  dialect_name := dialect;
  config_database := VStr "test";
  generator := gen;
  database := db;
  getModel := fun _ => None;
|}.

Definition no_sqlite : SQLiteQueryInterface := {|
  sqlite_renameColumn := fun _ _ _ _ => resolve VUndefined;
  sqlite_addConstraint := fun _ _ _ => resolve VUndefined;
|}.

(** An executor that accepts everything, and one that refuses everything. *)
Definition accepting : list Event -> value -> value -> Reply :=
  fun _ _ _ => Ok VUndefined.
Definition refusing : list Event -> value -> value -> Reply :=
  fun _ _ _ => Fail (VStr "connection lost").

(** A heap with a root transaction at 0 and a savepoint of it at 1. *)
Definition transactions : Heap :=
  <[0%nat := {| cls := "Transaction";
                fields := {["name" := VUndefined]} |}]>
  (<[1%nat := {| cls := "Transaction";
                 fields := {["parent" := VRef 0; "name" := VStr "sp1"]} |}]> ∅).

Definition start : World := {| heap := transactions; trace := [] |}.

(** The sqlite database of two tables [A] and [B] with foreign keys
    enforced; the statement [broken], if it comes, is refused. *)
Definition sqlite_db (broken : value) : list Event -> value -> value -> Reply :=
  fun _ sql _ =>
    if strict_eq sql (VStr "SHOW TABLES") then Ok (VArr [VStr "A"; VStr "B"])
    else if strict_eq sql (VStr "PRAGMA foreign_keys;")
         then Ok (VObj [("foreign_keys", VNum 1)])
    else if strict_eq sql broken then Fail (VStr "SQLITE_BUSY")
    else Ok VUndefined.

(** A database that answers every foreign-key query with two rows, the
    second without a constraint name. *)
Definition foreign_key_db : list Event -> value -> value -> Reply :=
  fun _ _ _ =>
    Ok (VArr [VObj [("constraint_name", VStr "fk_author")];
              VObj [("constraint_name", VNull)]]).

Definition two_tables : list value :=
  [VStr "users"; VObj [("schema", VStr "app"); ("tableName", VStr "posts")]].

(** A database whose tables all have one column [name], not null and
    with [null] reported as default. *)
Definition describing : list Event -> value -> value -> Reply :=
  fun _ sql _ =>
    match sql with
    | VStr _ =>
        Ok (VObj [("name", VObj [("type", VStr "VARCHAR(255)");
                                 ("allowNull", VBool false);
                                 ("defaultValue", VNull)])])
    | _ => Ok VUndefined
    end.

(** A database that answers every statement with the number [n]. *)
Definition counting (n : Z) : list Event -> value -> value -> Reply :=
  fun _ _ _ => Ok (VNum n).

Definition utils : Utils := {|
  isWhereEmpty := fun v => truthy v && isEmpty ∅ v;
|}.


(** A model with the unique key [email] and the unique index [(a, b)]. *)
Definition users : Model := {|
  uniqueKeys := [("users_email_unique", [VStr "email"])];
  _indexes := [ {| unique := VBool true;
                   index_fields := [VStr "a"; VObj [("attribute", VStr "b")]] |} ];
  primaryKeyField := VStr "id";
|}.

(** A generator whose deleteQuery stamps the where object it is given. *)
Definition stamping_generator : QueryGenerator := {|
  setAutocommitQuery := setAutocommitQuery text_generator;
  setIsolationLevelQuery := setIsolationLevelQuery text_generator;
  commitTransactionQuery := commitTransactionQuery text_generator;
  rollbackTransactionQuery := rollbackTransactionQuery text_generator;
  describeTableQuery := describeTableQuery text_generator;
  showTablesQuery := showTablesQuery text_generator;
  dropTableQuery := dropTableQuery text_generator;
  pgEnumDrop := pgEnumDrop text_generator;
  dropForeignKeyQuery := dropForeignKeyQuery text_generator;
  getForeignKeysQuery := getForeignKeysQuery text_generator;
  attributesToSQL := attributesToSQL text_generator;
  renameColumnQuery := renameColumnQuery text_generator;
  addConstraintQuery := addConstraintQuery text_generator;
  truncateTableQuery := truncateTableQuery text_generator;
  upsertQuery := upsertQuery text_generator;
  deleteQuery :=
    fun t where_ _ _ h =>
      (VStr ("DELETE FROM " +:+ to_str t),
       match where_ with
       | VRef l => set_field l "deletedAt" VNull h
       | _ => h
       end);
|}.

(** A heap with the caller's where object [{ id: 1 }] at 7. *)
Definition with_where : World :=
  {| heap := <[7 := {| cls := "Object"; fields := {["id" := VNum 1]} |}]> ∅;
     trace := [] |}.

(** A generator for the rest of the interface; it has no statement for
    triggers and functions. *)
Definition more_generator : MoreQueryGenerator := {|
  startTransactionQuery := fun _ _ => VStr "START TRANSACTION";
  deferConstraintsQuery := fun _ _ => VUndefined;
  addIndexQuery := fun t _ _ => VStr ("CREATE INDEX ON " +:+ to_str t);
  addColumnQuery := fun t k _ => VStr ("ALTER TABLE " +:+ to_str t +:+ " ADD " +:+ to_str k);
  updateQuery := fun t _ _ _ _ => VStr ("UPDATE " +:+ to_str t);
  selectQuery := fun t _ _ => VStr ("SELECT FROM " +:+ to_str t);
  addSchema := fun t => VStr (to_str (default VUndefined (assoc "_schema" (own_props t)))
                              +:+ "." +:+
                              to_str (default VUndefined (assoc "tableName" (own_props t))));
  QG_createTrigger := fun _ _ _ _ _ _ _ => VUndefined;
  QG_dropTrigger := fun _ _ => VUndefined;
  QG_renameTrigger := fun _ _ _ => VUndefined;
  QG_createFunction := fun _ _ _ _ _ _ _ => VUndefined;
  QG_dropFunction := fun _ _ => VUndefined;
  QG_renameFunction := fun _ _ _ => VUndefined;
|}.

(** A host whose association getter [getTasks] fails and whose other
    methods find nothing. *)
Definition host : Host := {|
  normalizeAttribute := fun a => a;
  dataTypeClass := fun _ => OtherType;
  parseFloat := fun v => v;
  parseInt10 := fun v => v;
  isDate := fun _ => false;
  newDate := fun v => v;
  invoke := fun _ method _ =>
              if String.eqb method "getTasks"
              then reject (DatabaseError (VStr "tasks are locked"))
              else resolve VNull;
|}.

(** An instance of a class with one association that cascades through
    hooks, [Tasks], and one that does not, [Logs]. *)
Definition project : value :=
  VObj [("id", VNum 1);
        ("constructor",
         VObj [("associations",
                VObj [("Logs",
                       VObj [("options", VObj [("onDelete", VStr "CASCADE")]);
                             ("accessors", VObj [("get", VStr "getLogs")])]);
                      ("Tasks",
                       VObj [("options", VObj [("onDelete", VStr "Cascade");
                                               ("useHooks", VBool true)]);
                             ("accessors", VObj [("get", VStr "getTasks")])])])])].

(** The sqlite database of tables [A] and [B], enforcement of foreign
    keys off. *)
Definition sqlite_db_off : list Event -> value -> value -> Reply :=
  fun _ sql _ =>
    if strict_eq sql (VStr "SHOW TABLES") then Ok (VArr [VStr "A"; VStr "B"])
    else if strict_eq sql (VStr "PRAGMA foreign_keys;")
         then Ok (VObj [("foreign_keys", VNum 0)])
    else Ok VUndefined.


(** An instance of a class with one association that cascades through
    hooks and whose getter, with this host, finds nothing. *)
Definition account : value :=
  VObj [("id", VNum 7);
        ("constructor",
         VObj [("associations",
                VObj [("Profile",
                       VObj [("options", VObj [("onDelete", VStr "cascade");
                                               ("useHooks", VBool true)]);
                             ("accessors", VObj [("get", VStr "getProfile")])])])])].

End Sample.

(** ** Vocabulary of the statements *)

(** The events a call added to the trace. *)
Definition new_events (w w' : World) : list Event :=
  drop (length (trace w)) (trace w').

(** The promise [sequelize.query] hands back for a reply. *)
Definition promised (r : Reply) : Outcome value :=
  match r with
  | Ok v => Resolved v
  | Fail e => Rejected (DatabaseError e)
  end.



(** What lines 902-919 make of a raw result, dialect by dialect. *)
Definition canonical_tuple (dialect : string) (h : Heap) (model : Model)
  (result : value) : Outcome value :=
  if String.eqb dialect "postgres" then
    if is_nullish result then Rejected TypeError
    else Resolved (VArr [prop h result "created"; prop h result "primary_key"])
  else if String.eqb dialect "mssql" then
    if is_nullish result then Rejected TypeError
    else Resolved (VArr [VBool (strict_eq (prop h result "$action") (VStr "INSERT"));
                         prop h result (to_str (primaryKeyField model))])
  else if String.eqb dialect "mysql" then
    Resolved (VArr [VBool (strict_eq result (VNum 1)); VUndefined])
  else
    Resolved (VArr [result; VUndefined]).

(** A method asks the generator once and sends the statement if there is
    one: what that leaves in the trace, and what the method's outcome is. *)
Definition sent_if_any (this : Sequelize) (method : string) (sql options : value)
  (w : World) (r : Outcome value * World) : Prop :=
  new_events w r.2 =
    Generated method sql :: (if truthy sql then [Sent sql options] else []) /\
  r.1 = if truthy sql
        then promised (database this (trace w ++ [Generated method sql]) sql options)
        else Resolved VUndefined.

(** The SQL of the statements handed to the executor, oldest first. *)
Definition sent_sql (t : list Event) : list value :=
  omap (fun e => match e with Sent sql _ => Some sql | Generated _ _ => None end) t.

(** ** Basic facts *)

Lemma set_field_lookup_eq (h : Heap) l k x o :
  h !! l = Some o ->
  set_field l k x h !! l = Some {| cls := cls o; fields := <[k := x]> (fields o) |}.
Proof.
  intros Hl. unfold set_field. rewrite Hl. apply lookup_insert_eq.
Qed.

Lemma set_field_is_Some (h : Heap) l l' k x :
  is_Some (h !! l) -> is_Some (set_field l' k x h !! l).
Proof.
  intros Hl. unfold set_field. destruct (h !! l') as [o'|] eqn:E; [|done].
  destruct (decide (l' = l)) as [->|Hne].
  - rewrite lookup_insert_eq. eauto.
  - by rewrite lookup_insert_ne.
Qed.

Lemma prop_set_field (h : Heap) l k x :
  is_Some (h !! l) -> prop (set_field l k x h) (VRef l) k = x.
Proof.
  intros [o Hl]. unfold prop, getp.
  rewrite (set_field_lookup_eq _ _ _ _ _ Hl). simpl.
  by rewrite lookup_insert_eq.
Qed.

(** What passes the guard at the head of the transaction methods is an
    object of the heap. *)
Lemma transaction_is_ref (h : Heap) transaction :
  not_a_transaction h transaction = false ->
  exists l, transaction = VRef l /\ is_Some (h !! l).
Proof.
  unfold not_a_transaction, instanceof.
  destruct transaction as [| | | | | | |l]; simpl; try (rewrite ?orb_true_r; discriminate).
  destruct (h !! l) eqn:E; [eauto | discriminate].
Qed.

Lemma assign_field_spec target k x (w : World) :
  exists h', assign_field target k x w = (tt, {| heap := h'; trace := trace w |}) /\
             forall l, is_Some (heap w !! l) -> is_Some (h' !! l).
Proof.
  destruct target; try (exists (heap w); by destruct w).
  exists (set_field l k x (heap w)). split; [done|].
  intros. by apply set_field_is_Some.
Qed.

Lemma generate_unfold method sql (w : World) :
  generate method sql w =
  (sql, {| heap := heap w; trace := trace w ++ [Generated method sql] |}).
Proof. done. Qed.

Lemma new_events_two (w w' : World) e1 e2 :
  trace w' = (trace w ++ [e1]) ++ [e2] -> new_events w w' = [e1; e2].
Proof.
  intros E. unfold new_events. rewrite E, <- app_assoc. by rewrite drop_app_length.
Qed.

(** ** Transaction control *)

Lemma query_unfold this sql options w :
  query this sql options w =
  (promised (database this (trace w) sql options),
   {| heap := heap w; trace := trace w ++ [Sent sql options] |}).
Proof. unfold query, promised. by destruct (database _ _ _ _). Qed.

(** C1, counterexample: the commit statement of a root transaction is
    refused by the database, the promise is rejected, and the handle that
    had no mark before the call carries the mark ['commit'] after it.
    And the commit of a savepoint on a connection that accepts everything
    succeeds and leaves the savepoint without mark. *)
Lemma commit_refused_still_marks :
  let refused := Sample.sequelize "mysql" Sample.text_generator Sample.refusing in
  let accepted := Sample.sequelize "mysql" Sample.text_generator Sample.accepting in
  let r := commitTransaction refused (VRef 0) VUndefined Sample.start in
  let s := commitTransaction accepted (VRef 1) VUndefined Sample.start in
  (r.1 = Rejected (DatabaseError (VStr "connection lost")) /\
   prop (heap Sample.start) (VRef 0) "finished" = VUndefined /\
   prop (heap r.2) (VRef 0) "finished" = VStr "commit") /\
  (s.1 = Resolved VUndefined /\
   prop (heap s.2) (VRef 1) "finished" = VUndefined).
Proof. vm_compute. done. Qed.

(** C1, as amended: for every transaction handle, rollbackTransaction, and
    commitTransaction on a handle without parent, hand one statement to the
    executor and then set the handle's [finished] mark (['rollback'],
    ['commit']) whatever the reply, the call's outcome being the promise
    of that reply; commitTransaction on a handle with a parent resolves
    without any statement and leaves the world as it was. *)
Theorem finished_marked_whatever_the_reply this transaction options w :
  not_a_transaction (heap w) transaction = false ->
  (exists sql options' w',
      rollbackTransaction this transaction options w =
        (promised (database this (trace w ++ [Generated "rollbackTransactionQuery" sql])
                     sql options'), w') /\
      new_events w w' = [Generated "rollbackTransactionQuery" sql; Sent sql options'] /\
      prop (heap w') transaction "finished" = VStr "rollback") /\
  (truthy (prop (heap w) transaction "parent") = false ->
   exists sql options' w',
      commitTransaction this transaction options w =
        (promised (database this (trace w ++ [Generated "commitTransactionQuery" sql])
                     sql options'), w') /\
      new_events w w' = [Generated "commitTransactionQuery" sql; Sent sql options'] /\
      prop (heap w') transaction "finished" = VStr "commit") /\
  (truthy (prop (heap w) transaction "parent") = true ->
   commitTransaction this transaction options w = (Resolved VUndefined, w)).
Proof.
  intros Hguard.
  destruct (transaction_is_ref _ _ Hguard) as (l & -> & Hl).
  split; [|split].
  - unfold rollbackTransaction, mbind, St_bind, get_heap. rewrite Hguard.
    match goal with
    | |- context [assign_field ?t ?k ?x w] =>
        destruct (assign_field_spec t k x w) as (h1 & -> & Hkeep)
    end.
    rewrite generate_unfold, query_unfold. cbn [heap trace].
    eexists _, _, _. split; [reflexivity|]. cbn [heap trace]. split.
    + by apply new_events_two.
    + apply prop_set_field. by apply Hkeep.
  - intros Hroot.
    unfold commitTransaction, mbind, St_bind, get_heap. rewrite Hguard, Hroot.
    rewrite generate_unfold, query_unfold. cbn [heap trace].
    eexists _, _, _. split; [reflexivity|]. cbn [heap trace]. split.
    + by apply new_events_two.
    + by apply prop_set_field.
  - intros Hsave.
    unfold commitTransaction, mbind, St_bind, get_heap. by rewrite Hguard, Hsave.
Qed.


(** The mark at work: a savepoint rolled back on a connection that
    refuses the statement. *)
Lemma finished_marked_whatever_the_reply_witness :
  let this := Sample.sequelize "mysql" Sample.text_generator Sample.refusing in
  not_a_transaction (heap Sample.start) (VRef 1) = false /\
  exists sql options' w',
    rollbackTransaction this (VRef 1) VUndefined Sample.start =
      (promised (database this (trace Sample.start ++
                                  [Generated "rollbackTransactionQuery" sql])
                   sql options'), w') /\
    new_events Sample.start w' =
      [Generated "rollbackTransactionQuery" sql; Sent sql options'] /\
    prop (heap w') (VRef 1) "finished" = VStr "rollback".
Proof.
  split; [reflexivity|].
  apply (proj1 (finished_marked_whatever_the_reply
                  (Sample.sequelize "mysql" Sample.text_generator Sample.refusing)
                  (VRef 1) VUndefined Sample.start eq_refl)).
Defined.

Lemma assoc_set_prop_eq k v ps : assoc k (set_prop k v ps) = Some v.
Proof.
  induction ps as [|[k' v'] ps IH]; simpl.
  - by rewrite String.eqb_refl.
  - destruct (String.eqb k k') eqn:E; simpl; rewrite ?String.eqb_refl, ?E; done.
Qed.

Lemma assoc_set_prop_ne k k' v ps :
  k <> k' -> assoc k (set_prop k' v ps) = assoc k ps.
Proof.
  intros Hne. apply String.eqb_neq in Hne.
  induction ps as [|[k'' v''] ps IH]; simpl.
  - by rewrite Hne.
  - destruct (String.eqb k' k'') eqn:E; simpl.
    + apply String.eqb_eq in E as <-. by rewrite Hne.
    + by rewrite IH.
Qed.

(** [_.assign({}, options, { k: v })] has [v] under [k]. *)
Lemma assign2_last h a k v : prop h (assign2 a (VObj [(k, v)])) k = v.
Proof.
  unfold prop, getp, assign2. simpl own_props at 2.
  rewrite fold_left_app. simpl. by rewrite assoc_set_prop_eq.
Qed.

Lemma new_events_one (w w' : World) e :
  trace w' = trace w ++ [e] -> new_events w w' = [e].
Proof. intros E. unfold new_events. by rewrite E, drop_app_length. Qed.




(** ** describeTable and renameColumn *)

(** C4: describeTable generates one statement and sends it; when the
    executor's result is empty the promise is rejected with the
    not-found message naming the table, when it is not empty the promise
    is fulfilled with that very result, and these are the only ways out
    besides the executor's own failure. *)
Theorem describeTable_empty_is_not_found this tableName options w :
  exists sql options',
    new_events w (describeTable this tableName options w).2 =
      [Generated "describeTableQuery" sql; Sent sql options'] /\
    heap (describeTable this tableName options w).2 = heap w /\
    (describeTable this tableName options w).1 =
      match database this (trace w ++ [Generated "describeTableQuery" sql])
              sql options' with
      | Ok data =>
          if isEmpty (heap w) data
          then Rejected (Reason (not_found_message (described_name (heap w) tableName)))
          else Resolved data
      | Fail e => Rejected (DatabaseError e)
      end.
Proof.
  unfold describeTable, mbind, St_bind, get_heap.
  rewrite generate_unfold. unfold then_. rewrite query_unfold.
  eexists _, _. cbn [heap trace].
  destruct (database this _ _ _) as [data|e] eqn:Hdb; cbn [promised heap trace].
  - destruct (isEmpty (heap w) data) eqn:Hempty; cbv [reject resolve];
      cbv beta iota; cbn [fst snd heap];
      (split; [by apply new_events_two | by rewrite Hdb, Hempty]).
  - cbn [fst snd heap]. split; [by apply new_events_two | by rewrite Hdb].
Qed.

(** The definition under the new name copies what introspection
    reported, the default left out exactly when it is [null] on a column
    that does not allow null. *)
Lemma renamed_definition_copies h column attrNameAfter :
  renamed_definition h column attrNameAfter =
  VObj [(to_str attrNameAfter,
         VObj ([("attribute", attrNameAfter);
                ("type", prop h column "type");
                ("allowNull", prop h column "allowNull")] ++
               (if strict_eq (prop h column "defaultValue") VNull
                   && negb (truthy (prop h column "allowNull"))
                then []
                else [("defaultValue", prop h column "defaultValue")])))].
Proof.
  unfold renamed_definition.
  by destruct (strict_eq _ _ && negb _).
Qed.

(** C7: once describeTable has reported the table and the column is in
    the report, renameColumn builds, on every dialect, a definition of the
    new column with the reported type, nullability and default, the
    default being left out when it is null on a not-null column; on every
    dialect other than sqlite that definition goes through attributesToSQL
    into the rename statement, which is sent. *)
Theorem renameColumn_copies_definition this SQLite
    tableName attrNameBefore attrNameAfter options w data w1 :
  describeTable this tableName (js_or options (VObj [])) w = (Resolved data, w1) ->
  truthy (prop (heap w1) data (to_str attrNameBefore)) = true ->
  let column := prop (heap w1) data (to_str attrNameBefore) in
  let default_ := prop (heap w1) column "defaultValue" in
  let definition :=
    VObj [(to_str attrNameAfter,
           VObj ([("attribute", attrNameAfter);
                  ("type", prop (heap w1) column "type");
                  ("allowNull", prop (heap w1) column "allowNull")] ++
                 (if strict_eq default_ VNull
                     && negb (truthy (prop (heap w1) column "allowNull"))
                  then [] else [("defaultValue", default_)])))] in
  renamed_definition (heap w1) column attrNameAfter = definition /\
  (options_dialect this <> "sqlite" ->
   let attrs := attributesToSQL (generator this) definition in
   let sql := renameColumnQuery (generator this) tableName attrNameBefore attrs in
   renameColumn this SQLite tableName attrNameBefore attrNameAfter options w =
     (promised (database this
                  (trace w1 ++ [Generated "attributesToSQL" attrs;
                                Generated "renameColumnQuery" sql])
                  sql (js_or options (VObj []))),
      {| heap := heap w1;
         trace := trace w1 ++ [Generated "attributesToSQL" attrs;
                               Generated "renameColumnQuery" sql;
                               Sent sql (js_or options (VObj []))] |})).
Proof.
  intros Hdescribe Hcolumn column default_ definition.
  split; [apply renamed_definition_copies|].
  intros Hdialect attrs sql.
  apply String.eqb_neq in Hdialect.
  unfold renameColumn, then_. rewrite Hdescribe.
  unfold mbind, St_bind, get_heap. rewrite Hcolumn. cbn [negb].
  rewrite Hdialect.
  replace (js_or (prop (heap w1) data (to_str attrNameBefore)) (VObj []))
    with column by (unfold js_or; by rewrite Hcolumn).
  rewrite renamed_definition_copies.
  rewrite !generate_unfold, query_unfold. cbn [heap trace].
  rewrite <- !app_assoc. subst attrs sql definition default_. cbn [app].
  by destruct (database this _ _ _).
Qed.

(** ** addConstraint *)

(** A property read raises or not according to the receiver alone. *)
Lemma getp_receiver h v k k' x : getp h v k = Some x -> is_Some (getp h v k').
Proof. destruct v; simpl; eauto; discriminate. Qed.

(** C8: whichever way the arguments are laid out (attributes then
    options, or options alone with the attributes in [options.fields]),
    when the options object has no [type], addConstraint throws, without
    returning a promise, the error that asks for [options.type], and the
    world is as before the call: nothing was generated, nothing was sent.
    The dialect plays no part. *)
Theorem addConstraint_without_type_throws this SQLite
    tableName attributes options rawTablename w :
  getp (heap w)
       (match attributes with VArr _ => options | _ => attributes end)
       "type" = Some VUndefined ->
  addConstraint this SQLite tableName attributes options rawTablename w =
    (Thrown (JsError "Constraint type must be specified through options.type"), w).
Proof.
  intros Htype.
  unfold addConstraint, mbind, St_bind, get_heap.
  destruct attributes; try discriminate Htype.
  all: try (destruct (getp_receiver _ _ _ "fields" _ Htype) as [fields Hfields];
            rewrite Hfields; cbn [mbind option_bind]).
  all: by rewrite Htype.
Qed.

(** ** getForeignKeysForTables *)


Section Collect.
Context (h : Heap).





End Collect.


(** ** dropAllTables *)

(** C6, counterexample: on sqlite with enforcement on, the drop of the
    first table is refused.  dropAllTables is rejected with that refusal,
    and the last statement it sent is the refused drop: enforcement was
    switched off and never on again. *)
Lemma drop_refused_leaves_enforcement_off :
  let this := Sample.sequelize "sqlite" Sample.text_generator
                (Sample.sqlite_db (VStr "DROP TABLE A")) in
  let r := dropAllTables this VUndefined Sample.start in
  r.1 = Rejected (DatabaseError (VStr "SQLITE_BUSY")) /\
  sent_sql (trace r.2) =
    [VStr "SHOW TABLES"; VStr "PRAGMA foreign_keys;";
     VStr "PRAGMA foreign_keys = OFF"; VStr "DROP TABLE A"].
Proof. vm_compute. done. Qed.

(** [Promise.each] hands back a promise, whatever its callback does. *)
Lemma each_never_throws {A} (f : A -> M value) xs w e w' :
  each_ f xs w <> (Thrown e, w').
Proof.
  destruct xs as [|x xs]; simpl; [done|].
  unfold then_, settle. destruct (f x w) as [[a|e1|e1] w1]; try done.
  destruct (each_ f xs w1) as [[a'|e2|e2] w2]; done.
Qed.

(** C6, as amended: on sqlite, once enforcement is found on and has been
    switched off, the tables are dropped one after the other; when every
    drop has succeeded, the statement that switches enforcement on again
    is sent and its reply is the outcome; when a drop fails, dropAllTables
    is rejected with that failure in the world the failed drop left,
    nothing being sent after it. *)
Theorem dropAllTables_sqlite_reenables_after_success this options w
    tableNames w1 result w2 x w3 :
  options_dialect this = "sqlite" ->
  let options' := js_or options (VObj []) in
  let skip := js_or (prop (heap w) options' "skip") (VArr []) in
  showAllTables this options' w = (Resolved tableNames, w1) ->
  query this (VStr "PRAGMA foreign_keys;") options' w1 = (Resolved result, w2) ->
  getp (heap w2) result "foreign_keys" = Some (VNum 1) ->
  query this (VStr "PRAGMA foreign_keys = OFF") options' w2 = (Resolved x, w3) ->
  (forall w4,
      drop_each this options' skip tableNames w3 = (Resolved tt, w4) ->
      dropAllTables this options w =
        query this (VStr "PRAGMA foreign_keys = ON") options' w4) /\
  (forall e w4,
      drop_each this options' skip tableNames w3 = (Rejected e, w4) ->
      dropAllTables this options w = (Rejected e, w4)).
Proof.
  intros Hdialect options' skip Hshow Hpragma Henabled Hoff.
  assert (forall o w4,
             drop_each this options' skip tableNames w3 = (o, w4) ->
             dropAllTables this options w =
               match o with
               | Resolved _ => query this (VStr "PRAGMA foreign_keys = ON") options' w4
               | Rejected e | Thrown e => (Rejected e, w4)
               end) as Hsteps.
  { intros o w4 Hdrops.
    unfold dropAllTables, mbind, St_bind, get_heap.
    fold options'. fold skip.
    unfold then_ at 1. rewrite Hshow.
    rewrite Hdialect. cbn [String.eqb Ascii.eqb Bool.eqb].
    unfold then_ at 1. rewrite Hpragma. rewrite Henabled. cbn [strict_eq Z.eqb Pos.eqb].
    unfold then_ at 1 2. rewrite Hoff, Hdrops.
    destruct o as [[]|e|e]; [|done|done].
    rewrite query_unfold. by destruct (database this _ _ _). }
  split.
  - intros w4 Hdrops. apply (Hsteps _ _ Hdrops).
  - intros e w4 Hdrops. apply (Hsteps _ _ Hdrops).
Qed.

(** ** upsert: the conflict targets *)



Section Intersection.
Context (keys : list string) (index : list value).






End Intersection.







(** ** upsert: the result *)

Lemma getp_nullish h v k : is_nullish v = true -> getp h v k = None.
Proof. by destruct v. Qed.

Lemma getp_prop h v k : is_nullish v = false -> getp h v k = Some (prop h v k).
Proof. by destruct v. Qed.

(** C3, counterexample: on sqlite the executor answers 2, and what upsert
    resolves with has that very 2 as first component: not a boolean, but
    the raw result. *)
Lemma sqlite_upsert_surfaces_raw_result :
  let this := Sample.sequelize "sqlite" Sample.text_generator (Sample.counting 2) in
  (upsert this Sample.utils (VStr "Users")
     (VObj [("id", VNum 1); ("email", VStr "a@x.com")])
     (VObj [("email", VStr "a@x.com")]) (VObj []) Sample.users (VObj [])
     Sample.start).1 =
  Resolved (VArr [VNum 2; VUndefined]).
Proof. vm_compute. done. Qed.

(** C3, as amended: on a call that gets as far as the executor, upsert
    resolves with a pair made from the raw result according to the
    dialect.  On mysql the first component is the
    boolean [result === 1], so 1 gives true and 2 gives false; on mssql it
    is the boolean [$action === 'INSERT'], with the primary-key column as
    second component; on postgres the pair is made of the row's [created]
    and [primary_key] columns; on every other dialect (sqlite) the pair is
    the raw result itself with no key. *)
Theorem upsert_result_by_dialect this utils
    tableName insertValues updateValues where_ model options w :
  is_nullish insertValues = false ->
  isObject options = true ->
  (exists sql options',
      (upsert this utils tableName insertValues updateValues where_ model options w).1 =
      match database this (trace w ++ [Generated "upsertQuery" sql]) sql options' with
      | Ok result => canonical_tuple (options_dialect this) (heap w) model result
      | Fail e => Rejected (DatabaseError e)
      end) /\
  canonical_tuple "mysql" (heap w) model (VNum 1) = Resolved (VArr [VBool true; VUndefined]) /\
  canonical_tuple "mysql" (heap w) model (VNum 2) = Resolved (VArr [VBool false; VUndefined]) /\
  (forall dialect result,
      dialect <> "postgres" -> dialect <> "mssql" -> dialect <> "mysql" ->
      canonical_tuple dialect (heap w) model result =
        Resolved (VArr [result; VUndefined])).
Proof.
  intros Hvalues Hoptions. split; [|split; [done|split; [done|]]].
  - unfold upsert, mbind, St_bind, get_heap.
    rewrite Hvalues, Hoptions. cbn [negb].
    rewrite generate_unfold. unfold then_. rewrite query_unfold. cbn [heap trace].
    match goal with
    | |- context [database this ?t ?s ?o] =>
        exists s, o; destruct (database this t s o) as [result|e]
    end; cbn [promised]; [|done].
    cbv beta iota. unfold upsert_result, canonical_tuple.
    destruct (String.eqb (options_dialect this) "postgres").
    { destruct (is_nullish result) eqn:Hnull.
      - by rewrite !getp_nullish.
      - by rewrite !getp_prop. }
    destruct (String.eqb (options_dialect this) "mssql").
    { destruct (is_nullish result) eqn:Hnull.
      - by rewrite !getp_nullish.
      - by rewrite !getp_prop. }
    by destruct (String.eqb (options_dialect this) "mysql").
  - intros dialect result Hpg Hms Hmy. unfold canonical_tuple.
    apply String.eqb_neq in Hpg, Hms, Hmy. by rewrite Hpg, Hms, Hmy.
Qed.

(** ** bulkDelete *)

(** With no binding for [identifier] in scope its type is not ['object'],
    and the clone of line 1039 is not taken: deleteQuery is given the
    caller's own [where], over the caller's heap. *)
Lemma bulkDelete_where_not_cloned this identifier tableName where_ ps model w :
  typeof_object identifier = false ->
  let options :=
    VObj (if strict_eq (default VUndefined (assoc "limit" ps)) VUndefined
          then set_prop "limit" VNull ps else ps) in
  strict_eq (default VUndefined (assoc "truncate" (own_props options))) (VBool true)
    = false ->
  bulkDelete this identifier tableName where_ (VObj ps) model w =
    let (sql, h') :=
      deleteQuery (generator this) tableName where_ options model (heap w) in
    query this sql options
      {| heap := h'; trace := trace w ++ [Generated "deleteQuery" sql] |}.
Proof.
  intros Hglobal options Htruncate.
  unfold bulkDelete, mbind, St_bind. cbn [cloneDeep own_props].
  subst options. cbn [own_props] in Htruncate. rewrite Htruncate, Hglobal.
  cbn [mret St_ret]. by destruct (deleteQuery _ _ _ _ _ _).
Qed.

(** C9, the failing input: truncation is not requested, the caller's
    [where] is the object [{ id: 1 }] at location 7, and the dialect's
    deleteQuery stamps the object it is given.  After the call the caller's
    object carries the stamp: it was not a clone that went to the
    generator.  Had [identifier] been bound to an object, the clone would
    have been taken and the caller's object left alone. *)
Theorem bulkDelete_changes_callers_where :
  let this := Sample.sequelize "mysql" Sample.stamping_generator Sample.accepting in
  let run identifier :=
    bulkDelete this identifier (VStr "T") (VRef 7) (VObj []) VNull Sample.with_where in
  getp (heap Sample.with_where) (VRef 7) "deletedAt" = Some VUndefined /\
  (run VUndefined).1 = Resolved VUndefined /\
  getp (heap (run VUndefined).2) (VRef 7) "deletedAt" = Some VNull /\
  getp (heap (run (VObj [])).2) (VRef 7) "deletedAt" = Some VUndefined.
Proof. vm_compute. done. Qed.

(** ** The theorems at work on the sample environments *)

(** The not-null column [name], default null, renamed on mysql. *)
Lemma renameColumn_copies_definition_witness :
  let this := Sample.sequelize "mysql" Sample.text_generator Sample.describing in
  let described := describeTable this (VStr "Users") (VObj []) Sample.start in
  let column := VObj [("type", VStr "VARCHAR(255)"); ("allowNull", VBool false);
                      ("defaultValue", VNull)] in
  let definition :=
    VObj [("fullName",
           VObj [("attribute", VStr "fullName"); ("type", VStr "VARCHAR(255)");
                 ("allowNull", VBool false)])] in
  described.1 = Resolved (VObj [("name", column)]) /\
  renamed_definition (heap described.2) column (VStr "fullName") = definition /\
  sent_sql (trace (renameColumn this Sample.no_sqlite (VStr "Users") (VStr "name")
                     (VStr "fullName") VUndefined Sample.start).2) =
    [VStr "DESCRIBE Users"; VStr "ALTER TABLE Users RENAME name"].
Proof.
  pose proof (renameColumn_copies_definition
                (Sample.sequelize "mysql" Sample.text_generator Sample.describing)
                Sample.no_sqlite (VStr "Users") (VStr "name") (VStr "fullName")
                VUndefined Sample.start _ _ eq_refl eq_refl) as [Hdefinition Hsent].
  split; [reflexivity|]. split; [exact Hdefinition|].
  rewrite Hsent by discriminate. reflexivity.
Defined.

(** A constraint without type, in both layouts of the arguments. *)
Lemma addConstraint_without_type_throws_witness :
  let this := Sample.sequelize "postgres" Sample.text_generator Sample.accepting in
  addConstraint this Sample.no_sqlite (VStr "Users") (VArr [VStr "email"])
    (VObj [("name", VStr "users_email")]) VUndefined Sample.start =
    (Thrown (JsError "Constraint type must be specified through options.type"),
     Sample.start) /\
  addConstraint this Sample.no_sqlite (VStr "Users")
    (VObj [("fields", VArr [VStr "email"])]) VUndefined VUndefined Sample.start =
    (Thrown (JsError "Constraint type must be specified through options.type"),
     Sample.start).
Proof.
  split.
  - apply (addConstraint_without_type_throws _ _ (VStr "Users") (VArr [VStr "email"])
             (VObj [("name", VStr "users_email")])). reflexivity.
  - apply (addConstraint_without_type_throws _ _ (VStr "Users")
             (VObj [("fields", VArr [VStr "email"])])). reflexivity.
Defined.

(** The mapping for two tables, the nameless row dropped. *)
Example foreign_keys_of_two_tables :
  (getForeignKeysForTables
     (Sample.sequelize "mysql" Sample.text_generator Sample.foreign_key_db)
     Sample.two_tables VUndefined Sample.start).1 =
  Resolved {[ "users" := [VStr "fk_author"]; "app.posts" := [VStr "fk_author"] ]}.
Proof. vm_compute. reflexivity. Qed.


(** Both drops succeed and enforcement is switched on again. *)
Lemma dropAllTables_sqlite_reenables_after_success_witness :
  let this := Sample.sequelize "sqlite" Sample.text_generator
                (Sample.sqlite_db (VStr "no such statement")) in
  let tables := [VStr "A"; VStr "B"] in
  let w1 := (showAllTables this (VObj []) Sample.start).2 in
  let w2 := (query this (VStr "PRAGMA foreign_keys;") (VObj []) w1).2 in
  let w3 := (query this (VStr "PRAGMA foreign_keys = OFF") (VObj []) w2).2 in
  let w4 := (drop_each this (VObj []) (VArr []) tables w3).2 in
  drop_each this (VObj []) (VArr []) tables w3 = (Resolved tt, w4) /\
  dropAllTables this VUndefined Sample.start =
    query this (VStr "PRAGMA foreign_keys = ON") (VObj []) w4 /\
  sent_sql (trace (dropAllTables this VUndefined Sample.start).2) =
    [VStr "SHOW TABLES"; VStr "PRAGMA foreign_keys;";
     VStr "PRAGMA foreign_keys = OFF"; VStr "DROP TABLE A"; VStr "DROP TABLE B";
     VStr "PRAGMA foreign_keys = ON"].
Proof.
  intros this tables w1 w2 w3 w4.
  assert (drop_each this (VObj []) (VArr []) tables w3 = (Resolved tt, w4)) as Hdrops
    by (vm_compute; reflexivity).
  split; [exact Hdrops|]. split; [|vm_compute; reflexivity].
  apply (proj1 (dropAllTables_sqlite_reenables_after_success
                  this VUndefined Sample.start tables w1
                  (VObj [("foreign_keys", VNum 1)]) w2 VUndefined w3
                  eq_refl eq_refl eq_refl eq_refl eq_refl) w4 Hdrops).
Defined.


(** mysql answers 1: inserted. *)
Lemma upsert_result_by_dialect_witness :
  let this := Sample.sequelize "mysql" Sample.text_generator (Sample.counting 1) in
  let run :=
    upsert this Sample.utils (VStr "Users")
      (VObj [("id", VNum 1); ("email", VStr "a@x.com")])
      (VObj [("email", VStr "a@x.com")]) (VObj []) Sample.users (VObj [])
      Sample.start in
  run.1 = Resolved (VArr [VBool true; VUndefined]) /\
  exists sql options',
    run.1 =
    match database this (trace Sample.start ++ [Generated "upsertQuery" sql])
            sql options' with
    | Ok result => canonical_tuple (options_dialect this) (heap Sample.start)
                     Sample.users result
    | Fail e => Rejected (DatabaseError e)
    end.
Proof.
  intros this run. split; [vm_compute; reflexivity|].
  exact (proj1 (upsert_result_by_dialect this Sample.utils (VStr "Users")
                  (VObj [("id", VNum 1); ("email", VStr "a@x.com")])
                  (VObj [("email", VStr "a@x.com")]) (VObj []) Sample.users
                  (VObj []) Sample.start eq_refl eq_refl)).
Defined.

(** * Further properties of the interface *)

(** ** Transactions *)

Lemma prop_set_field_other_key (h : Heap) l l' k k' x :
  k <> k' -> prop (set_field l k x h) (VRef l') k' = prop h (VRef l') k'.
Proof.
  intros Hne. unfold prop, getp, set_field.
  destruct (h !! l) as [o|] eqn:Hl; [|done].
  destruct (decide (l = l')) as [<-|Hl'].
  - rewrite lookup_insert_eq, Hl. simpl. by rewrite lookup_insert_ne.
  - by rewrite lookup_insert_ne.
Qed.

Lemma prop_set_field_other_loc (h : Heap) l l' k k' x :
  l <> l' -> prop (set_field l k x h) (VRef l') k' = prop h (VRef l') k'.
Proof.
  intros Hne. unfold prop, getp, set_field.
  destruct (h !! l) as [o|]; [|done]. by rewrite lookup_insert_ne.
Qed.

(** X1: The five methods that take a transaction refuse, before anything is
    generated or sent, what is not an instance of Transaction: each throws
    its own message and leaves the world as it was. *)
Theorem transaction_methods_refuse_strangers this more transaction value_ options w :
  not_a_transaction (heap w) transaction = true ->
  setAutocommit this transaction value_ options w =
    (Thrown (JsError "Unable to set autocommit for a transaction without transaction object!"), w) /\
  setIsolationLevel this transaction value_ options w =
    (Thrown (JsError "Unable to set isolation level for a transaction without transaction object!"), w) /\
  startTransaction this more transaction options w =
    (Thrown (JsError "Unable to start a transaction without transaction object!"), w) /\
  commitTransaction this transaction options w =
    (Thrown (JsError "Unable to commit a transaction without transaction object!"), w) /\
  rollbackTransaction this transaction options w =
    (Thrown (JsError "Unable to rollback a transaction without transaction object!"), w).
Proof.
  intros Hguard.
  unfold setAutocommit, setIsolationLevel, startTransaction, commitTransaction,
    rollbackTransaction, mbind, St_bind, get_heap.
  by rewrite Hguard.
Qed.

(** A plain object that has the shape of a handle is refused too. *)
Lemma transaction_methods_refuse_strangers_witness :
  let this := Sample.sequelize "mysql" Sample.text_generator Sample.accepting in
  let stranger := VObj [("parent", VUndefined); ("name", VStr "t1")] in
  not_a_transaction (heap Sample.start) stranger = true /\
  commitTransaction this stranger VUndefined Sample.start =
    (Thrown (JsError "Unable to commit a transaction without transaction object!"),
     Sample.start).
Proof.
  split; [reflexivity|].
  apply (transaction_methods_refuse_strangers
           (Sample.sequelize "mysql" Sample.text_generator Sample.accepting)
           Sample.more_generator
           (VObj [("parent", VUndefined); ("name", VStr "t1")])
           VUndefined VUndefined Sample.start eq_refl).
Defined.

(** X2: Rolling back a savepoint sends a statement over the parent's handle,
    marks the savepoint as rolled back, writes the savepoint's name into
    the parent, and leaves the parent's own [finished] mark as it was,
    whatever the reply. *)
Theorem rollback_of_savepoint_spares_parent this l p o options w :
  heap w !! l = Some o ->
  cls o = "Transaction" ->
  fields o !! "parent" = Some (VRef p) ->
  p <> l ->
  is_Some (heap w !! p) ->
  let r := rollbackTransaction this (VRef l) options w in
  (exists sql options',
      new_events w r.2 =
        [Generated "rollbackTransactionQuery" sql; Sent sql options'] /\
      prop (heap w) options' "transaction" = VRef p) /\
  prop (heap r.2) (VRef l) "finished" = VStr "rollback" /\
  prop (heap r.2) (VRef p) "finished" = prop (heap w) (VRef p) "finished" /\
  prop (heap r.2) (VRef p) "name" = prop (heap w) (VRef l) "name".
Proof.
  intros Hl Hcls Hparent Hne Hp r.
  assert (prop (heap w) (VRef l) "parent" = VRef p) as Hprop.
  { unfold prop, getp. rewrite Hl. simpl. by rewrite Hparent. }
  assert (not_a_transaction (heap w) (VRef l) = false) as Hguard.
  { unfold not_a_transaction, instanceof. rewrite Hl, Hcls. reflexivity. }
  assert (prop (heap w)
            (assign2 options
               (VObj [("transaction", js_or (prop (heap w) (VRef l) "parent") (VRef l));
                      ("supportsSearchPath", VBool false)])) "transaction" = VRef p)
    as Htarget.
  { rewrite Hprop. unfold prop, getp, assign2. simpl own_props at 2.
    rewrite fold_left_app. simpl.
    rewrite assoc_set_prop_ne by discriminate. by rewrite assoc_set_prop_eq. }
  subst r. unfold rollbackTransaction, mbind, St_bind, get_heap.
  rewrite Hguard, Htarget, Hprop. cbn [truthy assign_field modify_heap].
  rewrite generate_unfold, query_unfold. cbn [mret St_ret heap trace fst snd].
  rewrite Hprop in Htarget.
  split; [|split; [|split]].
  - eexists _, _. split; [by apply new_events_two | exact Htarget].
  - apply prop_set_field. apply set_field_is_Some. eauto.
  - rewrite prop_set_field_other_loc by done.
    by rewrite prop_set_field_other_key by discriminate.
  - rewrite prop_set_field_other_key by discriminate.
    by rewrite prop_set_field.
Qed.

Lemma rollback_of_savepoint_spares_parent_witness :
  let this := Sample.sequelize "mysql" Sample.text_generator Sample.refusing in
  let r := rollbackTransaction this (VRef 1) VUndefined Sample.start in
  prop (heap r.2) (VRef 1) "finished" = VStr "rollback" /\
  prop (heap r.2) (VRef 0) "finished" = VUndefined /\
  prop (heap r.2) (VRef 0) "name" = VStr "sp1".
Proof.
  pose proof (rollback_of_savepoint_spares_parent
                (Sample.sequelize "mysql" Sample.text_generator Sample.refusing)
                1 0 _ VUndefined Sample.start eq_refl eq_refl eq_refl
                (Nat.neq_0_succ 0) (ex_intro _ _ eq_refl))
    as (_ & Hmark & Hparent & Hname).
  split; [exact Hmark|]. split; [exact Hparent | exact Hname].
Defined.

Lemma prop_assign_field_other_key target k v (w : World) x k' :
  k <> k' ->
  prop (heap (assign_field target k v w).2) x k' = prop (heap w) x k'.
Proof.
  intros Hne. destruct target; try done. simpl.
  destruct x; try done. by apply prop_set_field_other_key.
Qed.

Lemma trace_assign_field target k v (w : World) :
  trace (assign_field target k v w).2 = trace w.
Proof. by destruct target. Qed.

(** X3: startTransaction sends one statement, over the parent's handle for a
    savepoint and over the handle itself otherwise, and its outcome is the
    promise of the reply; no handle is marked as finished by it. *)
Theorem startTransaction_marks_nothing this more transaction options w :
  not_a_transaction (heap w) transaction = false ->
  let r := startTransaction this more transaction options w in
  (exists sql options',
      new_events w r.2 = [Generated "startTransactionQuery" sql; Sent sql options'] /\
      prop (heap w) options' "transaction" =
        js_or (prop (heap w) transaction "parent") transaction /\
      r.1 = promised (database this
                        (trace w ++ [Generated "startTransactionQuery" sql])
                        sql options')) /\
  (forall x, prop (heap r.2) x "finished" = prop (heap w) x "finished").
Proof.
  intros Hguard r. subst r.
  unfold startTransaction, mbind, St_bind, get_heap. rewrite Hguard.
  rewrite assign2_last.
  destruct (assign_field _ "name" _ w) as [[] w1] eqn:Hassign.
  pose proof (trace_assign_field
                (js_or (prop (heap w) transaction "parent") transaction) "name"
                (if truthy (prop (heap w) transaction "parent")
                 then prop (heap w) transaction "name" else VUndefined) w) as Htrace.
  pose proof (fun x =>
                prop_assign_field_other_key
                  (js_or (prop (heap w) transaction "parent") transaction) "name"
                  (if truthy (prop (heap w) transaction "parent")
                   then prop (heap w) transaction "name" else VUndefined) w
                  x "finished" ltac:(discriminate)) as Hmarks.
  rewrite Hassign in Htrace, Hmarks. simpl in Htrace, Hmarks.
  rewrite generate_unfold, query_unfold. cbn [heap trace fst snd].
  rewrite Htrace. split; [|exact Hmarks].
  eexists _, _. split; [by apply new_events_two|].
  split; [apply assign2_last | reflexivity].
Qed.

Lemma startTransaction_marks_nothing_witness :
  let this := Sample.sequelize "mysql" Sample.text_generator Sample.accepting in
  let r := startTransaction this Sample.more_generator (VRef 1) VUndefined
             Sample.start in
  not_a_transaction (heap Sample.start) (VRef 1) = false /\
  sent_sql (trace r.2) = [VStr "START TRANSACTION"] /\
  forall x, prop (heap r.2) x "finished" = prop (heap Sample.start) x "finished".
Proof.
  split; [reflexivity|]. split; [reflexivity|].
  apply (proj2 (startTransaction_marks_nothing
                  (Sample.sequelize "mysql" Sample.text_generator Sample.accepting)
                  Sample.more_generator (VRef 1) VUndefined Sample.start eq_refl)).
Defined.

(** X4: deferConstraints checks nothing about its argument: on [undefined] or
    [null] it throws a TypeError before anything is generated.  On a
    handle, the generator is asked once, and a statement is sent only if
    the generator has one. *)
Theorem deferConstraints_is_unguarded this more transaction options w :
  (is_nullish transaction = true ->
   deferConstraints this more transaction options w = (Thrown TypeError, w)) /\
  (is_nullish transaction = false ->
   exists sql options',
     prop (heap w) options' "transaction" =
       js_or (prop (heap w) transaction "parent") transaction /\
     new_events w (deferConstraints this more transaction options w).2 =
       Generated "deferConstraintsQuery" sql ::
       (if truthy sql then [Sent sql options'] else [])).
Proof.
  unfold deferConstraints, mbind, St_bind, get_heap. split; intros Hnull.
  - by rewrite getp_nullish.
  - rewrite (getp_prop _ _ _ Hnull), generate_unfold.
    match goal with
    | |- context [Generated "deferConstraintsQuery" ?s] => set (sql0 := s)
    end.
    eexists sql0, _. split; [apply assign2_last|].
    destruct (truthy sql0).
    + rewrite query_unfold. cbn [fst snd heap trace]. by apply new_events_two.
    + cbn [resolve fst snd heap trace]. by apply new_events_one.
Qed.

(** ** Introspection *)

(** What [Promise.map] leaves in the trace: what each call leaves, in
    order, every call being made. *)
Lemma all_trace {A B} (f : A -> M B) (ev : A -> list Event) xs :
  (forall x w, trace (f x w).2 = trace w ++ ev x) ->
  forall w, trace (all_ f xs w).2 = trace w ++ flat_map ev xs.
Proof.
  intros Hstep. induction xs as [|x xs IH]; intros w; simpl.
  - by rewrite app_nil_r.
  - unfold settle. specialize (Hstep x w).
    destruct (f x w) as [o w1]. simpl in Hstep. specialize (IH w1).
    destruct o; cbv beta iota; destruct (all_ f xs w1) as [os w2];
      simpl in *; by rewrite IH, Hstep, <- app_assoc.
Qed.

(** X6: getForeignKeysForTables asks about every table, once and in the order
    given, with the query type FOREIGNKEYS, whatever the replies are: a
    failed query does not keep the later ones from being sent. *)
Theorem foreign_keys_are_asked_for_every_table this tableNames options w :
  tableNames <> [] ->
  let options' :=
    assign2 (js_or options (VObj [])) (VObj [("type", QueryTypes.FOREIGNKEYS)]) in
  prop (heap w) options' "type" = QueryTypes.FOREIGNKEYS /\
  new_events w (getForeignKeysForTables this tableNames options w).2 =
    flat_map (fun tableName =>
                let sql := getForeignKeysQuery (generator this) tableName
                             (config_database this) in
                [Generated "getForeignKeysQuery" sql; Sent sql options'])
             tableNames.
Proof.
  intros Hsome options'. split; [apply assign2_last|].
  assert (forall w,
             trace (foreign_key_queries this tableNames options' w).2 =
             trace w ++
             flat_map (fun tableName =>
                         let sql := getForeignKeysQuery (generator this) tableName
                                      (config_database this) in
                         [Generated "getForeignKeysQuery" sql; Sent sql options'])
                      tableNames) as Hqueries.
  { intros w0. unfold foreign_key_queries. apply all_trace.
    intros t w1. unfold mbind, St_bind. rewrite generate_unfold, query_unfold.
    cbn [snd heap trace]. by rewrite <- app_assoc. }
  unfold getForeignKeysForTables.
  destruct tableNames as [|t ts]; [done|].
  fold options'. unfold then_, new_events.
  specialize (Hqueries w).
  destruct (foreign_key_queries this (t :: ts) options' w) as [[results|e|e] w1];
    simpl in Hqueries.
  - unfold mbind, St_bind, get_heap.
    destruct (collect_foreign_keys _ _ _ _ _); simpl;
      by rewrite Hqueries, drop_app_length.
  - simpl. by rewrite Hqueries, drop_app_length.
  - simpl. by rewrite Hqueries, drop_app_length.
Qed.

Lemma foreign_keys_are_asked_for_every_table_witness :
  let this := Sample.sequelize "mysql" Sample.text_generator Sample.refusing in
  Sample.two_tables <> [] /\
  sent_sql (new_events Sample.start
              (getForeignKeysForTables this Sample.two_tables VUndefined
                 Sample.start).2) =
    [VStr "FOREIGN KEYS OF users"; VStr "FOREIGN KEYS OF [object Object]"].
Proof.
  assert (Sample.two_tables <> []) as Hsome by discriminate.
  split; [exact Hsome|].
  pose proof (proj2 (foreign_keys_are_asked_for_every_table
                       (Sample.sequelize "mysql" Sample.text_generator Sample.refusing)
                       Sample.two_tables VUndefined Sample.start Hsome)) as Hall.
  cbv zeta in Hall |- *. rewrite Hall. reflexivity.
Defined.

(** X7: renameColumn goes no further than the description when it cannot use
    it: if describeTable is rejected, so is renameColumn, with the same
    reason; if the description lacks the column, renameColumn is rejected
    with an error naming table and column.  In both cases nothing is
    generated or sent after the description, on any dialect, sqlite
    included. *)
Theorem renameColumn_needs_the_column this SQLite
    tableName attrNameBefore attrNameAfter options w w1 :
  (forall e,
      describeTable this tableName (js_or options (VObj [])) w = (Rejected e, w1) ->
      renameColumn this SQLite tableName attrNameBefore attrNameAfter options w =
        (Rejected e, w1)) /\
  (forall data,
      describeTable this tableName (js_or options (VObj [])) w = (Resolved data, w1) ->
      truthy (prop (heap w1) data (to_str attrNameBefore)) = false ->
      renameColumn this SQLite tableName attrNameBefore attrNameAfter options w =
        (Rejected (JsError ("Table " +:+ to_str tableName +:+
                            " doesn't have the column " +:+ to_str attrNameBefore)),
         w1)).
Proof.
  split.
  - intros e Hdescribe. unfold renameColumn, then_. by rewrite Hdescribe.
  - intros data Hdescribe Hmissing. unfold renameColumn, then_.
    rewrite Hdescribe. unfold mbind, St_bind, get_heap. by rewrite Hmissing.
Qed.

Lemma renameColumn_needs_the_column_witness :
  let this := Sample.sequelize "sqlite" Sample.text_generator Sample.describing in
  let described := describeTable this (VStr "Users") (VObj []) Sample.start in
  truthy (prop (heap described.2)
            (VObj [("name", VObj [("type", VStr "VARCHAR(255)");
                                  ("allowNull", VBool false);
                                  ("defaultValue", VNull)])])
            "email") = false /\
  renameColumn this Sample.no_sqlite (VStr "Users") (VStr "email") (VStr "mail")
    VUndefined Sample.start =
    (Rejected (JsError "Table Users doesn't have the column email"), described.2).
Proof.
  split; [reflexivity|].
  apply (proj2 (renameColumn_needs_the_column
                  (Sample.sequelize "sqlite" Sample.text_generator Sample.describing)
                  Sample.no_sqlite (VStr "Users") (VStr "email") (VStr "mail")
                  VUndefined Sample.start _) _ eq_refl eq_refl).
Defined.

(** ** Constraints, indexes, columns *)

Lemma set_prop_twice k v ps : set_prop k v (set_prop k v ps) = set_prop k v ps.
Proof.
  induction ps as [|[k' v'] ps IH]; simpl.
  - by rewrite String.eqb_refl.
  - destruct (String.eqb k k') eqn:E; simpl.
    + by rewrite String.eqb_refl.
    + by rewrite E, IH.
Qed.

(** X8: The two layouts of the arguments of addConstraint come to the same:
    attributes then options, or options alone with the attributes under
    [fields] and the raw table name moved up by one place (the fourth
    argument is then not read). *)
Theorem addConstraint_layouts_agree this SQLite
    tableName attributes ps rawTablename ignored w :
  addConstraint this SQLite tableName (VArr attributes) (VObj ps) rawTablename w =
  addConstraint this SQLite tableName
    (VObj (set_prop "fields" (VArr attributes) ps)) rawTablename ignored w.
Proof.
  unfold addConstraint, mbind, St_bind, get_heap. cbn [getp option_bind cloneDeep].
  rewrite assoc_set_prop_eq. cbn [default option_bind own_props].
  rewrite (assoc_set_prop_ne "type" "fields") by discriminate.
  by rewrite set_prop_twice.
Qed.

(** X9: addIndex has the same two layouts, and they come to the same; and
    whatever the caller's options say, the statement goes to the executor
    with [supportsSearchPath] false. *)
Theorem addIndex_layouts_agree this more tableName attributes ps rawTablename ignored w :
  addIndex this more tableName (VArr attributes) (VObj ps) rawTablename w =
  addIndex this more tableName
    (VObj (set_prop "fields" (VArr attributes) ps)) rawTablename ignored w /\
  exists sql options',
    new_events w
      (addIndex this more tableName (VArr attributes) (VObj ps) rawTablename w).2 =
      [Generated "addIndexQuery" sql; Sent sql options'] /\
    prop (heap w) options' "supportsSearchPath" = VBool false.
Proof.
  split.
  - unfold addIndex, mbind, St_bind, get_heap. cbn [getp option_bind cloneDeep].
    rewrite assoc_set_prop_eq. cbn [default option_bind own_props isObject negb].
    by rewrite set_prop_twice.
  - unfold addIndex, mbind, St_bind, get_heap.
    cbn [getp option_bind cloneDeep own_props isObject negb].
    rewrite generate_unfold, query_unfold. cbn [fst snd heap trace].
    eexists _, _. split; [by apply new_events_two | apply assign2_last].
Qed.

(** X10: addColumn wants its first three arguments: when the table, the column
    name or the definition is missing (falsy), it throws before the
    definition is normalized and before anything is generated or sent. *)
Theorem addColumn_wants_three_arguments this more host table key attribute options w :
  truthy table = false \/ truthy key = false \/ truthy attribute = false ->
  addColumn this more host table key attribute options w =
    (Thrown (JsError "addColumn takes atleast 3 arguments (table, attribute name, attribute definition)"),
     w).
Proof.
  intros Hmissing. unfold addColumn.
  destruct Hmissing as [->|[->| ->]]; simpl; by rewrite ?orb_true_r.
Qed.

Lemma addColumn_wants_three_arguments_witness :
  addColumn (Sample.sequelize "mysql" Sample.text_generator Sample.accepting)
    Sample.more_generator Sample.host (VStr "Users") (VStr "email") VUndefined
    VUndefined Sample.start =
    (Thrown (JsError "addColumn takes atleast 3 arguments (table, attribute name, attribute definition)"),
     Sample.start).
Proof.
  apply (addColumn_wants_three_arguments _ _ _ (VStr "Users") (VStr "email")
           VUndefined VUndefined Sample.start).
  right. right. reflexivity.
Defined.

(** ** update and delete *)

(** X11: update and delete read [instance.constructor] without a guard: called
    without an instance they throw a TypeError, and nothing has been
    generated or sent by then.  (update guards its other read of the
    instance, the one for [hasTrigger].) *)
Theorem update_and_delete_need_an_instance this more host
    instance tableName values identifier options w :
  is_nullish instance = true ->
  (isObject (js_or options (VObj [])) = true ->
   update this more instance tableName values identifier options w =
     (Thrown TypeError, w)) /\
  delete this host instance tableName identifier options w = (Thrown TypeError, w).
Proof.
  intros Hnull.
  assert (constructor_of (heap w) instance = None) as Hclass by (by destruct instance).
  split.
  - intros Hoptions. unfold update, mbind, St_bind, get_heap.
    by rewrite Hoptions, Hclass.
  - unfold delete, mbind, St_bind, get_heap. by rewrite Hclass.
Qed.

Lemma update_and_delete_need_an_instance_witness :
  let this := Sample.sequelize "mysql" Sample.text_generator Sample.accepting in
  update this Sample.more_generator VUndefined (VStr "Users")
    (VObj [("name", VStr "x")]) (VObj [("id", VNum 1)]) VUndefined Sample.start =
    (Thrown TypeError, Sample.start) /\
  delete this Sample.host VNull (VStr "Users") (VObj [("id", VNum 1)]) VUndefined
    Sample.start = (Thrown TypeError, Sample.start).
Proof.
  split.
  - apply (proj1 (update_and_delete_need_an_instance
                    (Sample.sequelize "mysql" Sample.text_generator Sample.accepting)
                    Sample.more_generator Sample.host VUndefined (VStr "Users")
                    (VObj [("name", VStr "x")]) (VObj [("id", VNum 1)]) VUndefined
                    Sample.start eq_refl) eq_refl).
  - apply (proj2 (update_and_delete_need_an_instance
                    (Sample.sequelize "mysql" Sample.text_generator Sample.accepting)
                    Sample.more_generator Sample.host VNull (VStr "Users")
                    VUndefined (VObj [("id", VNum 1)]) VUndefined
                    Sample.start eq_refl)).
Defined.

(** [Promise.each] over a list in two parts: the second part is run only
    if the first went through, from where that left the world. *)
Lemma each_app {A} (f : A -> M value) xs ys w :
  each_ f (xs ++ ys) w =
  match each_ f xs w with
  | (Resolved _, w1) => each_ f ys w1
  | r => r
  end.
Proof.
  revert w. induction xs as [|x xs IH]; intros w; simpl; [done|].
  unfold then_, settle. destruct (f x w) as [[a|e|e] w1]; try done.
  rewrite IH. destruct (each_ f xs w1) as [[[]|e|e] w2]; try done.
  destruct (each_ f ys w2) as [[[]|e|e] w3] eqn:Hys; try done.
  by apply each_never_throws in Hys.
Qed.

(** X12: The getters delete runs are those of associations whose [onDelete]
    spells cascade, in whatever letter case, and whose [useHooks] is
    [true] itself: no other association is loaded. *)
Theorem only_hooked_cascades_are_run h associations cascades :
  cascades_of h associations = Some cascades ->
  forall get, get ∈ cascades ->
    exists name association options s,
      (name, association) ∈ associations /\
      getp h association "options" = Some options /\
      prop h options "onDelete" = VStr s /\
      toLowerCase s = "cascade" /\
      prop h options "useHooks" = VBool true /\
      prop h (prop h association "accessors") "get" = get.
Proof.
  revert cascades. induction associations as [|[name association] rest IH];
    intros cascades; simpl.
  - intros [= <-] get Hin. by apply elem_of_nil in Hin.
  - destruct (cascade_of h association) as [c|] eqn:Hc; [simpl|done].
    destruct (cascades_of h rest) as [cs|]; [simpl|done].
    intros [= <-] get Hin.
    assert (get ∈ cs ->
            exists name0 association0 options s,
              (name0, association0) ∈ (name, association) :: rest /\
              getp h association0 "options" = Some options /\
              prop h options "onDelete" = VStr s /\
              toLowerCase s = "cascade" /\
              prop h options "useHooks" = VBool true /\
              prop h (prop h association0 "accessors") "get" = get) as Hrest.
    { intros Hcs. destruct (IH cs eq_refl get Hcs) as (n & a & o & s & Hn & Hrest).
      exists n, a, o, s. split; [by right | exact Hrest]. }
    destruct c as [g|]; [|by apply Hrest].
    apply elem_of_cons in Hin as [->|Hin]; [|by apply Hrest].
    clear Hrest IH. unfold cascade_of in Hc.
    destruct (getp h association "options") as [options|] eqn:Hoptions;
      [simpl in Hc|done].
    destruct (truthy options); [simpl in Hc|done].
    destruct (truthy (prop h options "onDelete")); [simpl in Hc|done].
    destruct (prop h options "onDelete") as [| | | |s| | |] eqn:HonDelete;
      try discriminate.
    destruct (String.eqb (toLowerCase s) "cascade") eqn:Hspelling;
      [simpl in Hc|done].
    destruct (strict_eq (prop h options "useHooks") (VBool true)) eqn:Hhooks;
      [|done].
    destruct (getp h association "accessors") as [accessors|] eqn:Haccessors;
      [simpl in Hc|done].
    destruct (getp h accessors "get") as [g'|] eqn:Hget; [simpl in Hc|done].
    injection Hc as <-.
    exists name, association, options, s.
    split; [left|]. split; [done|]. split; [done|].
    split; [by apply String.eqb_eq|]. split.
    + destruct (prop h options "useHooks") as [| |[]| | | | |]; done.
    + unfold prop at 2. rewrite Haccessors. simpl. unfold prop. by rewrite Hget.
Qed.

Lemma only_hooked_cascades_are_run_witness :
  let associations :=
    own_props (prop ∅ (prop ∅ Sample.project "constructor") "associations") in
  cascades_of ∅ associations = Some [VStr "getTasks"] /\
  exists name association options s,
    (name, association) ∈ associations /\
    getp ∅ association "options" = Some options /\
    prop ∅ options "onDelete" = VStr s /\
    toLowerCase s = "cascade" /\
    prop ∅ options "useHooks" = VBool true /\
    prop ∅ (prop ∅ association "accessors") "get" = VStr "getTasks".
Proof.
  intros associations. split; [reflexivity|].
  apply (only_hooked_cascades_are_run ∅ associations [VStr "getTasks"] eq_refl).
  left.
Defined.

(** X13: A cascade that fails keeps the row: when the getter of a cascading
    association is rejected, the associations after it are not loaded,
    the statement that deletes the row, though generated at the start, is
    not sent, and delete is rejected with the getter's failure. *)
Theorem delete_cascade_failure_keeps_the_row this host
    instance tableName identifier options w class sql h1
    before getter after e w2 w3 :
  constructor_of (heap w) instance = Some class ->
  deleteQuery (generator this) tableName identifier (VObj []) class (heap w)
    = (sql, h1) ->
  let w1 := {| heap := h1; trace := trace w ++ [Generated "deleteQuery" sql] |} in
  let options' := js_or options (VObj []) in
  truthy class && truthy (prop h1 class "associations") = true ->
  cascades_of h1 (own_props (prop h1 class "associations"))
    = Some (before ++ getter :: after) ->
  run_cascades host instance options' before w1 = (Resolved tt, w2) ->
  invoke host instance (to_str getter) options' w2 = (Rejected e, w3) ->
  delete this host instance tableName identifier options w = (Rejected e, w3).
Proof.
  intros Hclass Hsql w1 options' Hassociations Hcascades Hbefore Hgetter.
  unfold delete, mbind, St_bind, get_heap. rewrite Hclass, Hsql.
  cbn [heap]. fold w1 options'. rewrite Hassociations, Hcascades.
  unfold then_ at 1. unfold run_cascades in *. rewrite each_app, Hbefore.
  cbn [each_]. unfold then_ at 1, settle, then_ at 1. by rewrite Hgetter.
Qed.

Lemma delete_cascade_failure_keeps_the_row_witness :
  let this := Sample.sequelize "mysql" Sample.text_generator Sample.accepting in
  let r := delete this Sample.host Sample.project (VStr "Projects")
             (VObj [("id", VNum 1)]) VUndefined Sample.start in
  r.1 = Rejected (DatabaseError (VStr "tasks are locked")) /\
  sent_sql (trace r.2) = [].
Proof.
  intros this r.
  assert (r = (Rejected (DatabaseError (VStr "tasks are locked")),
               {| heap := heap Sample.start;
                  trace := [Generated "deleteQuery" (VStr "DELETE FROM Projects")] |}))
    as ->.
  { apply (delete_cascade_failure_keeps_the_row this Sample.host Sample.project
             (VStr "Projects") (VObj [("id", VNum 1)]) VUndefined Sample.start
             _ _ _ [] (VStr "getTasks") [] _ _ _
             eq_refl eq_refl eq_refl eq_refl eq_refl eq_refl). }
  split; reflexivity.
Defined.

(** X14: A getter that finds nothing is no work and no error: with one
    cascading association whose getter resolves with a falsy value, no
    instance is destroyed and the row's statement is sent next. *)
Theorem delete_with_nothing_associated this host
    instance tableName identifier options w class sql h1 getter found w2 :
  constructor_of (heap w) instance = Some class ->
  deleteQuery (generator this) tableName identifier (VObj []) class (heap w)
    = (sql, h1) ->
  let w1 := {| heap := h1; trace := trace w ++ [Generated "deleteQuery" sql] |} in
  let options' := js_or options (VObj []) in
  isObject options' = true ->
  truthy class && truthy (prop h1 class "associations") = true ->
  cascades_of h1 (own_props (prop h1 class "associations")) = Some [getter] ->
  invoke host instance (to_str getter) options' w1 = (Resolved found, w2) ->
  truthy found = false ->
  delete this host instance tableName identifier options w =
    (promised (database this (trace w2) sql
                 (VObj (set_prop "instance" instance (own_props options')))),
     {| heap := heap w2;
        trace := trace w2 ++
                 [Sent sql (VObj (set_prop "instance" instance (own_props options')))] |}).
Proof.
  intros Hclass Hsql w1 options' Hoptions Hassociations Hcascades Hgetter Hfound.
  unfold delete, mbind, St_bind, get_heap. rewrite Hclass, Hsql.
  cbn [heap]. fold w1 options'. rewrite Hassociations, Hcascades, Hoptions.
  unfold run_cascades. cbn [each_ negb].
  unfold then_, settle. rewrite Hgetter, Hfound. cbn [negb resolve].
  rewrite query_unfold. by destruct (database this _ _ _).
Qed.

Lemma delete_with_nothing_associated_witness :
  let this := Sample.sequelize "mysql" Sample.text_generator Sample.accepting in
  let r := delete this Sample.host Sample.account (VStr "Accounts")
             (VObj [("id", VNum 7)]) VUndefined Sample.start in
  r.1 = Resolved VUndefined /\
  sent_sql (trace r.2) = [VStr "DELETE FROM Accounts"].
Proof.
  intros this r.
  assert (r = (Resolved VUndefined,
               {| heap := heap Sample.start;
                  trace := [Generated "deleteQuery" (VStr "DELETE FROM Accounts");
                            Sent (VStr "DELETE FROM Accounts")
                              (VObj [("instance", Sample.account)])] |}))
    as ->.
  { apply (delete_with_nothing_associated this Sample.host Sample.account
             (VStr "Accounts") (VObj [("id", VNum 7)]) VUndefined Sample.start
             _ _ _ (VStr "getProfile") VNull _
             eq_refl eq_refl eq_refl eq_refl eq_refl eq_refl eq_refl). }
  split; reflexivity.
Defined.

(** ** rawSelect *)

(** A property the caller has set keeps its value. *)
Lemma assoc_defaults_given ds : forall ps k v,
  assoc k ps = Some v -> strict_eq v VUndefined = false ->
  assoc k (fold_left default_step ds ps) = Some v.
Proof.
  induction ds as [|[k' v'] ds' IH]; intros ps k v Hk Hv; simpl; [done|].
  apply IH; [|done]. unfold default_step. simpl.
  destruct (strict_eq (default VUndefined (assoc k' ps)) VUndefined) eqn:Hset;
    [|done].
  rewrite assoc_set_prop_ne; [done|].
  intros <-. rewrite Hk in Hset. simpl in Hset. congruence.
Qed.

(** A property for which there is no default is as the caller left it. *)
Lemma assoc_defaults_other ds : forall ps k,
  k ∉ ds.*1 -> assoc k (fold_left default_step ds ps) = assoc k ps.
Proof.
  induction ds as [|[k' v'] ds' IH]; intros ps k Hk; simpl; [done|].
  simpl in Hk. apply not_elem_of_cons in Hk as [Hne Hk].
  rewrite IH by done. unfold default_step. simpl.
  destruct (strict_eq _ _); [|done]. by apply assoc_set_prop_ne.
Qed.

(** A property the caller has not set gets its default, when the
    defaults name it once. *)
Lemma assoc_defaults_absent ds : forall ps k v,
  NoDup ds.*1 -> (k, v) ∈ ds -> assoc k ps = None ->
  strict_eq v VUndefined = false ->
  assoc k (fold_left default_step ds ps) = Some v.
Proof.
  induction ds as [|[k' v'] ds' IH]; intros ps k v Hnodup Hin Habsent Hv.
  - by apply elem_of_nil in Hin.
  - simpl in Hnodup. apply NoDup_cons in Hnodup as [Hfresh Hnodup].
    apply elem_of_cons in Hin as [[= <- <-]|Hin]; simpl.
    + unfold default_step at 2. simpl. rewrite Habsent. simpl.
      apply assoc_defaults_given; [apply assoc_set_prop_eq | done].
    + assert (k <> k') as Hne.
      { intros ->. apply Hfresh. apply list_elem_of_fmap. by exists (k', v). }
      apply (IH _ k v Hnodup Hin); [|done].
      unfold default_step. simpl.
      destruct (strict_eq (default VUndefined (assoc k' ps)) VUndefined); [|done].
      by rewrite assoc_set_prop_ne.
Qed.

(** X15: rawSelect checks for the attribute selector late: without one it
    throws, but only after the schema has been added to the table name and
    the SELECT statement has been generated; the statement is not sent. *)
Theorem rawSelect_wants_a_selector this more host tableName ps Model_ w :
  let r := rawSelect this more host tableName (VObj ps) VUndefined Model_ w in
  r.1 = Thrown (JsError "Please pass an attribute selector!") /\
  sent_sql (new_events w r.2) = [] /\
  exists sql, last (new_events w r.2) = Some (Generated "selectQuery" sql).
Proof.
  unfold rawSelect, mbind, St_bind, get_heap. cbn [getp cloneDeep strict_eq].
  destruct (truthy _);
    cbv [generate emit mbind St_bind mret St_ret throw]; cbn [fst snd heap trace].
  - erewrite new_events_two by reflexivity. split; [done|]. split; [done|]. eauto.
  - erewrite new_events_one by reflexivity. split; [done|]. split; [done|]. eauto.
Qed.

(** X16: With [plain: false] rawSelect hands back what the executor answered,
    as it is: no attribute is selected and no conversion applied. *)
Theorem rawSelect_not_plain_is_raw this more host
    tableName ps attributeSelector Model_ w :
  strict_eq attributeSelector VUndefined = false ->
  assoc "plain" ps = Some (VBool false) ->
  exists sql options',
    (rawSelect this more host tableName (VObj ps) attributeSelector Model_ w).1 =
      promised (database this
                  (trace w ++
                   (if truthy (default VUndefined (assoc "schema" ps))
                    then [Generated "addSchema"
                            (addSchema more
                               (VObj [("tableName", tableName);
                                      ("_schema", default VUndefined (assoc "schema" ps))]))]
                    else []) ++
                   [Generated "selectQuery" sql])
                  sql options').
Proof.
  intros Hselector Hplain.
  unfold rawSelect, mbind, St_bind, get_heap. cbn [getp cloneDeep].
  rewrite Hselector.
  assert (forall h, prop h (defaults (VObj ps)
                              [("raw", VBool true); ("plain", VBool true);
                               ("type", MoreQueryTypes.SELECT)]) "plain"
                    = VBool false) as Hkept.
  { intros h. unfold prop, getp, defaults. cbn [own_props].
    by rewrite (assoc_defaults_given _ _ _ _ Hplain eq_refl). }
  destruct (truthy _);
    cbv [generate emit mbind St_bind mret St_ret]; cbn [heap trace];
    unfold then_; rewrite query_unfold; cbn [heap trace];
    rewrite <- ?app_assoc; cbn [app];
    match goal with
    | |- context [database this ?t ?s ?o] =>
        exists s, o; destruct (database this t s o) as [data|e]
    end; cbn [promised]; try done;
    unfold mbind, St_bind; cbn [heap]; by rewrite Hkept.
Qed.

Lemma rawSelect_not_plain_is_raw_witness :
  let this := Sample.sequelize "mysql" Sample.text_generator (Sample.counting 3) in
  (rawSelect this Sample.more_generator Sample.host (VStr "Users")
     (VObj [("plain", VBool false)]) (VStr "count") VNull Sample.start).1 =
  Resolved (VNum 3).
Proof.
  intros this.
  destruct (rawSelect_not_plain_is_raw this Sample.more_generator Sample.host
              (VStr "Users") [("plain", VBool false)] (VStr "count") VNull
              Sample.start eq_refl eq_refl) as (sql & options' & ->).
  reflexivity.
Defined.

(** X17: With the defaults, when the executor answers with no row (a falsy
    value) and no data type is asked for, rawSelect resolves with [null]. *)
Theorem rawSelect_of_no_row_is_null this more host
    tableName ps attributeSelector Model_ data w :
  strict_eq attributeSelector VUndefined = false ->
  assoc "plain" ps = None ->
  assoc "dataType" ps = None ->
  let options' :=
    defaults (VObj ps)
      [("raw", VBool true); ("plain", VBool true); ("type", MoreQueryTypes.SELECT)] in
  let sql :=
    selectQuery more
      (if truthy (default VUndefined (assoc "schema" ps))
       then addSchema more
              (VObj [("tableName", tableName);
                     ("_schema", default VUndefined (assoc "schema" ps))])
       else tableName)
      options' Model_ in
  (forall t, database this t sql options' = Ok data) ->
  truthy data = false ->
  (rawSelect this more host tableName (VObj ps) attributeSelector Model_ w).1 =
    Resolved VNull.
Proof.
  intros Hselector Hplain HdataType options' sql Hreply Hdata. subst sql.
  unfold rawSelect, mbind, St_bind, get_heap. cbn [getp cloneDeep].
  rewrite Hselector. fold options'.
  assert (forall h, prop h options' "plain" = VBool true) as Hdefault.
  { intros h. unfold prop, getp. subst options'. unfold defaults. cbn [own_props].
    rewrite (assoc_defaults_absent _ ps "plain" (VBool true)); [done| | |done|done].
    - repeat constructor; rewrite ?elem_of_cons, ?elem_of_nil; intros H;
        repeat destruct H as [H|H]; try discriminate H; done.
    - right. left. }
  assert (forall h, prop h options' "dataType" = VUndefined) as Hnone.
  { intros h. unfold prop, getp. subst options'. unfold defaults. cbn [own_props].
    rewrite assoc_defaults_other; [by rewrite HdataType|].
    simpl. rewrite !elem_of_cons, elem_of_nil. intros H.
    repeat destruct H as [H|H]; try discriminate H; done. }
  destruct (truthy _);
    cbv [generate emit mbind St_bind mret St_ret]; cbn [heap trace];
    unfold then_; rewrite query_unfold, Hreply; cbn [promised heap trace];
    rewrite Hdefault; cbn [truthy negb];
    rewrite Hdata; unfold convert_result; rewrite Hnone;
    by rewrite andb_false_r.
Qed.

Lemma rawSelect_of_no_row_is_null_witness :
  let this := Sample.sequelize "mysql" Sample.text_generator Sample.accepting in
  (rawSelect this Sample.more_generator Sample.host (VStr "Users")
     (VObj [("where", VObj [("id", VNum 1)])]) (VStr "name") VNull Sample.start).1 =
  Resolved VNull.
Proof.
  intros this.
  apply (rawSelect_of_no_row_is_null this Sample.more_generator Sample.host
           (VStr "Users") [("where", VObj [("id", VNum 1)])] (VStr "name") VNull
           VUndefined Sample.start eq_refl eq_refl eq_refl
           (fun _ => eq_refl) eq_refl).
Defined.

(** ** Triggers and functions *)

Lemma sent_if_any_intro this method sql options w :
  sent_if_any this method sql options w
    ((sql ← generate method sql;
      if truthy sql then query this sql options else resolve VUndefined) w).
Proof.
  unfold sent_if_any, mbind, St_bind. rewrite generate_unfold.
  destruct (truthy sql).
  - rewrite query_unfold. cbn [fst snd heap trace].
    split; [by apply new_events_two | done].
  - cbn [resolve fst snd heap trace]. split; [by apply new_events_one | done].
Qed.

(** X18: The six operations on triggers and functions ask the generator once
    and send its statement; on a dialect whose generator has no statement
    for the operation they resolve without sending anything. *)
Theorem triggers_and_functions_skip_silently this more
    a b c d e f g options w :
  let options' := js_or options (VObj []) in
  sent_if_any this "createTrigger" (QG_createTrigger more a b c d e f g) options' w
    (createTrigger this more a b c d e f g options w) /\
  sent_if_any this "dropTrigger" (QG_dropTrigger more a b) options' w
    (dropTrigger this more a b options w) /\
  sent_if_any this "renameTrigger" (QG_renameTrigger more a b c) options' w
    (renameTrigger this more a b c options w) /\
  sent_if_any this "createFunction" (QG_createFunction more a b c d e f g) options' w
    (createFunction this more a b c d e f options g w) /\
  sent_if_any this "dropFunction" (QG_dropFunction more a b) options' w
    (dropFunction this more a b options w) /\
  sent_if_any this "renameFunction" (QG_renameFunction more a b c) options' w
    (renameFunction this more a b c options w).
Proof.
  intros options'. repeat split; apply sent_if_any_intro.
Qed.

(** ** setIsolationLevel, bulkDelete, upsert *)

(** X5: Without a level there is nothing to set: setIsolationLevel given a
    falsy level resolves at once, on a root transaction too, and the
    generator is not even asked. *)
Theorem setIsolationLevel_without_level this transaction value_ options w :
  not_a_transaction (heap w) transaction = false ->
  truthy value_ = false ->
  setIsolationLevel this transaction value_ options w = (Resolved VUndefined, w).
Proof.
  intros Hguard Hlevel. unfold setIsolationLevel, mbind, St_bind, get_heap.
  by rewrite Hguard, Hlevel, orb_true_r.
Qed.

Lemma setIsolationLevel_without_level_witness :
  setIsolationLevel
    (Sample.sequelize "mysql" Sample.text_generator Sample.accepting)
    (VRef 0) VUndefined VUndefined Sample.start = (Resolved VUndefined, Sample.start).
Proof.
  apply (setIsolationLevel_without_level _ (VRef 0) VUndefined VUndefined
           Sample.start eq_refl eq_refl).
Defined.

(** X19: When truncation is asked for, bulkDelete reads neither the where
    clause nor the model nor [identifier]: the TRUNCATE statement of the
    table is generated and sent, with [limit] defaulted to null, and the
    heap is as before. *)
Theorem bulkDelete_truncate_ignores_where this identifier identifier'
    tableName where1 where2 ps model1 model2 w :
  assoc "truncate" ps = Some (VBool true) ->
  bulkDelete this identifier tableName where1 (VObj ps) model1 w =
    bulkDelete this identifier' tableName where2 (VObj ps) model2 w /\
  exists options',
    options' = defaults (VObj ps) [("limit", VNull)] /\
    let sql := truncateTableQuery (generator this) tableName options' in
    new_events w (bulkDelete this identifier tableName where1 (VObj ps) model1 w).2 =
      [Generated "truncateTableQuery" sql; Sent sql options'] /\
    heap (bulkDelete this identifier tableName where1 (VObj ps) model1 w).2 = heap w.
Proof.
  intros Htruncate.
  assert (forall identifier where_ model,
             bulkDelete this identifier tableName where_ (VObj ps) model w =
             query this
               (truncateTableQuery (generator this) tableName
                  (defaults (VObj ps) [("limit", VNull)]))
               (defaults (VObj ps) [("limit", VNull)])
               {| heap := heap w;
                  trace := trace w ++
                           [Generated "truncateTableQuery"
                              (truncateTableQuery (generator this) tableName
                                 (defaults (VObj ps) [("limit", VNull)]))] |})
    as Hrun.
  { intros i x m. unfold bulkDelete, mbind, St_bind. cbn [cloneDeep own_props].
    unfold defaults, default_step. cbn [own_props fold_left fst snd].
    replace (strict_eq
               (default VUndefined
                  (assoc "truncate"
                     (if strict_eq (default VUndefined (assoc "limit" ps)) VUndefined
                      then set_prop "limit" VNull ps else ps)))
               (VBool true)) with true; [done|].
    destruct (strict_eq (default VUndefined (assoc "limit" ps)) VUndefined);
      rewrite ?assoc_set_prop_ne by discriminate; by rewrite Htruncate. }
  split; [by rewrite !Hrun|].
  eexists. split; [reflexivity|]. rewrite Hrun, query_unfold.
  cbn [fst snd heap trace]. split; [by apply new_events_two | done].
Qed.

Lemma bulkDelete_truncate_ignores_where_witness :
  let this := Sample.sequelize "mysql" Sample.stamping_generator Sample.accepting in
  bulkDelete this VUndefined (VStr "T") (VRef 7) (VObj [("truncate", VBool true)])
    VNull Sample.with_where =
  bulkDelete this (VObj []) (VStr "T") VUndefined (VObj [("truncate", VBool true)])
    VNull Sample.with_where.
Proof.
  apply (proj1 (bulkDelete_truncate_ignores_where
                  (Sample.sequelize "mysql" Sample.stamping_generator Sample.accepting)
                  VUndefined (VObj []) (VStr "T") (VRef 7) VUndefined
                  [("truncate", VBool true)] VNull VNull Sample.with_where eq_refl)).
Defined.

(** X20: Whatever the caller's options say about [type] and [raw], upsert
    sends its statement as an UPSERT query in raw mode. *)
Theorem upsert_is_sent_raw this utils
    tableName insertValues updateValues where_ model options w :
  is_nullish insertValues = false ->
  isObject options = true ->
  exists sql options',
    new_events w (upsert this utils tableName insertValues updateValues
                    where_ model options w).2 =
      [Generated "upsertQuery" sql; Sent sql options'] /\
    prop (heap w) options' "type" = QueryTypes.UPSERT /\
    prop (heap w) options' "raw" = VBool true.
Proof.
  intros Hvalues Hoptions.
  unfold upsert, mbind, St_bind, get_heap.
  rewrite Hvalues, Hoptions. cbn [negb].
  rewrite generate_unfold. unfold then_. rewrite query_unfold.
  eexists _, _. split; [|split].
  - destruct (promised _) as [result|e|e]; cbn [heap trace].
    + destruct (upsert_result _ _ _ _); cbv [resolve throw]; cbv beta iota;
        cbn [snd]; by apply new_events_two.
    + cbn [snd]. by apply new_events_two.
    + cbn [snd]. by apply new_events_two.
  - unfold prop, getp. rewrite assoc_set_prop_ne by discriminate.
    by rewrite assoc_set_prop_eq.
  - unfold prop, getp. by rewrite assoc_set_prop_eq.
Qed.

Lemma upsert_is_sent_raw_witness :
  let this := Sample.sequelize "mysql" Sample.text_generator (Sample.counting 1) in
  exists sql options',
    new_events Sample.start
      (upsert this Sample.utils (VStr "Users") (VObj [("id", VNum 1)]) (VObj [])
         (VObj []) Sample.users (VObj [("raw", VBool false); ("type", VStr "SELECT")])
         Sample.start).2 =
      [Generated "upsertQuery" sql; Sent sql options'] /\
    prop (heap Sample.start) options' "type" = QueryTypes.UPSERT /\
    prop (heap Sample.start) options' "raw" = VBool true.
Proof.
  apply (upsert_is_sent_raw
           (Sample.sequelize "mysql" Sample.text_generator (Sample.counting 1))
           Sample.utils (VStr "Users") (VObj [("id", VNum 1)]) (VObj []) (VObj [])
           Sample.users (VObj [("raw", VBool false); ("type", VStr "SELECT")])
           Sample.start eq_refl eq_refl).
Defined.

(** ** Dropping tables *)

(** X21: On a dialect other than postgres, dropTable sends one statement, with
    [cascade] set to the caller's [cascade], else the caller's [force],
    else false; when the statement succeeds dropTable resolves with
    [undefined], not with the executor's answer. *)
Theorem dropTable_sends_one_statement this tableName options w :
  options_dialect this <> "postgres" ->
  let ps := own_props (js_or options (VObj [])) in
  let cascade :=
    js_or (js_or (default VUndefined (assoc "cascade" ps))
                 (default VUndefined (assoc "force" ps)))
          (VBool false) in
  let r := dropTable this tableName options w in
  exists sql options',
    new_events w r.2 = [Generated "dropTableQuery" sql; Sent sql options'] /\
    prop (heap w) options' "cascade" = cascade /\
    r.1 = match database this (trace w ++ [Generated "dropTableQuery" sql])
                  sql options' with
          | Ok _ => Resolved VUndefined
          | Fail e => Rejected (DatabaseError e)
          end.
Proof.
  intros Hdialect ps cascade r. subst r.
  apply String.eqb_neq in Hdialect.
  set (options' := VObj (set_prop "cascade" cascade ps)).
  set (sql := dropTableQuery (generator this) tableName options').
  assert (dropTable this tableName options w =
          (match database this (trace w ++ [Generated "dropTableQuery" sql])
                   sql options' with
           | Ok _ => Resolved VUndefined
           | Fail e => Rejected (DatabaseError e)
           end,
           {| heap := heap w;
              trace := (trace w ++ [Generated "dropTableQuery" sql]) ++
                       [Sent sql options'] |})) as ->.
  { unfold dropTable, mbind, St_bind, get_heap. fold ps. fold cascade.
    fold options'. fold sql.
    rewrite generate_unfold. unfold then_ at 1. rewrite query_unfold.
    cbn [heap trace].
    destruct (database this _ sql options') as [v|e]; cbn [promised]; [|done].
    by rewrite Hdialect. }
  exists sql, options'. cbn [fst snd].
  split; [by apply new_events_two|]. split; [|done].
  subst options'. unfold prop, getp. by rewrite assoc_set_prop_eq.
Qed.

Lemma dropTable_sends_one_statement_witness :
  let this := Sample.sequelize "mysql" Sample.text_generator (Sample.counting 1) in
  let r := dropTable this (VStr "Users") (VObj [("force", VBool true)]) Sample.start in
  r.1 = Resolved VUndefined /\
  exists sql options',
    new_events Sample.start r.2 = [Generated "dropTableQuery" sql; Sent sql options'] /\
    prop (heap Sample.start) options' "cascade" = VBool true.
Proof.
  intros this r.
  destruct (dropTable_sends_one_statement this (VStr "Users")
              (VObj [("force", VBool true)]) Sample.start)
    as (sql & options' & Hevents & Hcascade & Houtcome); [discriminate|].
  split; [exact Houtcome|]. exists sql, options'. split; [exact Hevents | exact Hcascade].
Defined.

(** X22: A table listed in [options.skip], by its name or, for a table given
    as an object, by its [tableName], is left alone: when every table is
    listed, the drops resolve and the world is as before. *)
Theorem skipped_tables_are_not_dropped this options skip tableNames w :
  Forall (fun tableName =>
            is_nullish tableName = false /\
            existsb (strict_eq (js_or (prop (heap w) tableName "tableName") tableName))
                    skip = true)
         tableNames ->
  drop_each this options (VArr skip) tableNames w = (Resolved tt, w).
Proof.
  intros Hlisted. unfold drop_each.
  match goal with |- each_ ?f _ _ = _ => set (step := f) end.
  induction Hlisted as [|t ts [Hnull Hlisted] Hrest IH]; [done|].
  assert (step t w = (Resolved VUndefined, w)) as Hstep.
  { subst step. unfold mbind, St_bind, get_heap. cbn beta.
    rewrite (getp_prop _ _ _ Hnull). cbn [not_skipped]. unfold not_in_array.
    by rewrite Hlisted. }
  cbn [each_]. unfold then_, settle. rewrite Hstep. by rewrite IH.
Qed.

Lemma skipped_tables_are_not_dropped_witness :
  let this := Sample.sequelize "mysql" Sample.text_generator Sample.accepting in
  drop_each this (VObj []) (VArr [VStr "users"; VStr "posts"]) Sample.two_tables
    Sample.start = (Resolved tt, Sample.start).
Proof.
  apply (skipped_tables_are_not_dropped
           (Sample.sequelize "mysql" Sample.text_generator Sample.accepting)
           (VObj []) [VStr "users"; VStr "posts"] Sample.two_tables Sample.start).
  repeat constructor.
Defined.

(** X23: On sqlite, when enforcement of foreign keys is found off (the pragma
    does not answer 1), dropAllTables neither switches it off nor on: it
    goes on with the drops, resolves with the list of tables when they
    all succeed, and is rejected with the failure of the first that
    fails. *)
Theorem dropAllTables_sqlite_enforcement_off this options w
    tableNames w1 result w2 foreign_keys :
  options_dialect this = "sqlite" ->
  let options' := js_or options (VObj []) in
  let skip := js_or (prop (heap w) options' "skip") (VArr []) in
  showAllTables this options' w = (Resolved tableNames, w1) ->
  query this (VStr "PRAGMA foreign_keys;") options' w1 = (Resolved result, w2) ->
  getp (heap w2) result "foreign_keys" = Some foreign_keys ->
  strict_eq foreign_keys (VNum 1) = false ->
  (forall w3,
      drop_each this options' skip tableNames w2 = (Resolved tt, w3) ->
      dropAllTables this options w = (Resolved (VArr tableNames), w3)) /\
  (forall e w3,
      drop_each this options' skip tableNames w2 = (Rejected e, w3) ->
      dropAllTables this options w = (Rejected e, w3)).
Proof.
  intros Hdialect options' skip Hshow Hpragma Hkeys Hoff.
  assert (forall o w3,
             drop_each this options' skip tableNames w2 = (o, w3) ->
             dropAllTables this options w =
               (match o with
                | Resolved _ => Resolved (VArr tableNames)
                | Rejected e | Thrown e => Rejected e
                end, w3)) as Hsteps.
  { intros o w3 Hdrops.
    unfold dropAllTables, mbind, St_bind, get_heap.
    fold options'. fold skip.
    unfold then_ at 1. rewrite Hshow.
    rewrite Hdialect. cbn [String.eqb Ascii.eqb Bool.eqb].
    unfold then_ at 1. rewrite Hpragma, Hkeys, Hoff.
    unfold then_. rewrite Hdrops. by destruct o as [[]|e|e]. }
  split.
  - intros w3 Hdrops. apply (Hsteps _ _ Hdrops).
  - intros e w3 Hdrops. apply (Hsteps _ _ Hdrops).
Qed.

Lemma dropAllTables_sqlite_enforcement_off_witness :
  let this := Sample.sequelize "sqlite" Sample.text_generator Sample.sqlite_db_off in
  let r := dropAllTables this VUndefined Sample.start in
  r.1 = Resolved (VArr [VStr "A"; VStr "B"]) /\
  sent_sql (trace r.2) =
    [VStr "SHOW TABLES"; VStr "PRAGMA foreign_keys;";
     VStr "DROP TABLE A"; VStr "DROP TABLE B"].
Proof.
  intros this r.
  set (w1 := (showAllTables this (VObj []) Sample.start).2).
  set (w2 := (query this (VStr "PRAGMA foreign_keys;") (VObj []) w1).2).
  set (w3 := (drop_each this (VObj []) (VArr []) [VStr "A"; VStr "B"] w2).2).
  assert (drop_each this (VObj []) (VArr []) [VStr "A"; VStr "B"] w2
          = (Resolved tt, w3)) as Hdrops by (vm_compute; reflexivity).
  assert (r = (Resolved (VArr [VStr "A"; VStr "B"]), w3)) as ->.
  { apply (proj1 (dropAllTables_sqlite_enforcement_off
                    this VUndefined Sample.start [VStr "A"; VStr "B"] w1
                    (VObj [("foreign_keys", VNum 0)]) w2 (VNum 0)
                    eq_refl eq_refl eq_refl eq_refl eq_refl) w3 Hdrops). }
  split; [reflexivity | vm_compute; reflexivity].
Defined.


